(** * MQTT v5 properties and connect options (paho.mqtt.cpp)

    A shallow embedding of [include/mqtt/properties.h] and of the property
    accessors of [include/mqtt/connect_options.h].

    C++ objects are values; a member function that mutates [*this] returns
    the new object.  An exception is an [outcome] of the form [throw e]; a
    read outside an array is the outcome [undefined].  Integers are [Z] with
    the conversions of the source written out. *)

From stdpp Require Import base numbers list strings gmap.

Local Open Scope Z_scope.

(** ** Integer conversions *)

Definition uint8_t (x : Z) : Z := x mod 2 ^ 8.
Definition uint16_t (x : Z) : Z := x mod 2 ^ 16.
Definition uint32_t (x : Z) : Z := x mod 2 ^ 32.
Definition size_t (x : Z) : Z := x mod 2 ^ 64.

(** Conversion to a signed type of [w] bits: the value congruent to [x]
    modulo [2^w] in the range [-2^(w-1) .. 2^(w-1) - 1]. *)
Definition to_signed (w : Z) (x : Z) : Z :=
  (x + 2 ^ (w - 1)) mod 2 ^ w - 2 ^ (w - 1).

Definition int16_t (x : Z) : Z := to_signed 16 x.
Definition int32_t (x : Z) : Z := to_signed 32 x.
(** [int(idx)] *)
Definition int (x : Z) : Z := to_signed 32 x.

(** ** Outcomes of a call *)

(** The exceptions the headers throw ([bad_cast], [std::out_of_range]),
    the [std::length_error] that the constructor of [std::string] throws
    for a length above its maximal size, and the two failure kinds the
    specification names for the constructors and for the member
    [properties::get], which are defined outside the headers. *)
Inductive exn : Type :=
  | bad_cast
  | out_of_range (what : string)
  | length_error
  | PropertyNotFound
  | InvalidPropertyKind.

Inductive outcome (A : Type) : Type :=
  | ok (a : A)
  | throw (e : exn)
  | undefined.

Arguments ok {A} a.
Arguments throw {A} e.
Arguments undefined {A}.

Definition bind {A B : Type} (m : outcome A) (k : A -> outcome B) : outcome B :=
  match m with
  | ok a => k a
  | throw e => throw e
  | undefined => undefined
  end.

(** ** The C structures *)

(** [std::string(p, n)] for a pointer [p] to the characters [buf] and an
    [int] length [n]: the first [n] characters of the buffer.  The length
    is converted to [size_t]; a negative [n] becomes a length of at least
    [2^64 - 2^31], above the maximal size of a string, and the constructor
    throws [std::length_error].  The constructor requires [n] characters
    at [p]: a length beyond the buffer reads outside it. *)
Definition string_of_buffer (buf : string) (n : Z) : outcome string :=
  if n <? 0 then throw length_error
  else if Z.of_nat (String.length buf) <? n then undefined
  else ok (String.substring 0 (Z.to_nat n) buf).

Module MQTTLenString.
(** Modelled from the spec: the C struct [MQTTLenString] of
    MQTTProperties.h, which is not among the sources; section 6 describes
    it as a length followed by raw bytes.  [data] is the [char*]: [None]
    for the null pointer, [Some buf] for a pointer to the characters
    [buf]. *)
Record t : Type := mk { len : Z; data : option string }.
End MQTTLenString.

Module MQTTValue.
(** Modelled from the spec: the value union of the C struct
    [MQTTProperty] (MQTTProperties.h is not among the sources), with the
    members the header reads: [byte], [integer2], [integer4] and the two
    buffers [data] and [value].  Each member is kept as a view of its
    own; every function below reads the member its source reads. *)
Record t : Type := mk {
  byte : Z;
  integer2 : Z;
  integer4 : Z;
  data : MQTTLenString.t;
  value : MQTTLenString.t
}.
End MQTTValue.

Module MQTTProperty.
(** Modelled from the spec: the C struct [MQTTProperty], an identifier
    and a value (section 6). *)
Record t : Type := mk { identifier : Z; value : MQTTValue.t }.
End MQTTProperty.

Module MQTTProperties.
(** Modelled from the spec: the C struct [MQTTProperties], "a count plus
    an array" (section 6).  [array] holds the cells the pointer
    addresses, none for the null pointer. *)
Record t : Type := mk { count : Z; array : list MQTTProperty.t }.
End MQTTProperties.

(** Modelled from the spec: the macro [MQTTProperties_initializer] of
    MQTTProperties.h; "a Property List is created empty" (section 3). *)
Definition MQTTProperties_initializer : MQTTProperties.t :=
  MQTTProperties.mk 0 [].

(** [memset(&s, 0, sizeof(MQTTProperties))]: every field zero, the pointer
    null. *)
Definition memset_zero : MQTTProperties.t := MQTTProperties.mk 0 [].

(** The cells in use: the first [count] cells of the array. *)
Definition cells (c : MQTTProperties.t) : list MQTTProperty.t :=
  take (Z.to_nat (MQTTProperties.count c)) (MQTTProperties.array c).

(** The representation invariant of the C struct: [count] is an [int]
    and does not exceed the number of cells allocated. *)
Definition wf_MQTTProperties (c : MQTTProperties.t) : Prop :=
  0 <= MQTTProperties.count c < 2 ^ 31 /\
  MQTTProperties.count c <= Z.of_nat (length (MQTTProperties.array c)).

(** ** class property *)

(** [enum property::code] *)
Inductive code : Type :=
  | PAYLOAD_FORMAT_INDICATOR
  | MESSAGE_EXPIRY_INTERVAL
  | CONTENT_TYPE
  | RESPONSE_TOPIC
  | CORRELATION_DATA
  | SUBSCRIPTION_IDENTIFIER
  | SESSION_EXPIRY_INTERVAL
  | ASSIGNED_CLIENT_IDENTIFIER
  | SERVER_KEEP_ALIVE
  | AUTHENTICATION_METHOD
  | AUTHENTICATION_DATA
  | REQUEST_PROBLEM_INFORMATION
  | WILL_DELAY_INTERVAL
  | REQUEST_RESPONSE_INFORMATION
  | RESPONSE_INFORMATION
  | SERVER_REFERENCE
  | REASON_STRING
  | RECEIVE_MAXIMUM
  | TOPIC_ALIAS_MAXIMUM
  | TOPIC_ALIAS
  | MAXIMUM_QOS
  | RETAIN_AVAILABLE
  | USER_PROPERTY
  | MAXIMUM_PACKET_SIZE
  | WILDCARD_SUBSCRIPTION_AVAILABLE
  | SUBSCRIPTION_IDENTIFIERS_AVAILABLE
  | SHARED_SUBSCRIPTION_AVAILABLE.

(** The integer of an enumerator: [MQTTPropertyCodes(c)]. *)
Definition MQTTPropertyCodes (c : code) : Z :=
  match c with
  | PAYLOAD_FORMAT_INDICATOR => 1
  | MESSAGE_EXPIRY_INTERVAL => 2
  | CONTENT_TYPE => 3
  | RESPONSE_TOPIC => 8
  | CORRELATION_DATA => 9
  | SUBSCRIPTION_IDENTIFIER => 11
  | SESSION_EXPIRY_INTERVAL => 17
  | ASSIGNED_CLIENT_IDENTIFIER => 18
  | SERVER_KEEP_ALIVE => 19
  | AUTHENTICATION_METHOD => 21
  | AUTHENTICATION_DATA => 22
  | REQUEST_PROBLEM_INFORMATION => 23
  | WILL_DELAY_INTERVAL => 24
  | REQUEST_RESPONSE_INFORMATION => 25
  | RESPONSE_INFORMATION => 26
  | SERVER_REFERENCE => 28
  | REASON_STRING => 31
  | RECEIVE_MAXIMUM => 33
  | TOPIC_ALIAS_MAXIMUM => 34
  | TOPIC_ALIAS => 35
  | MAXIMUM_QOS => 36
  | RETAIN_AVAILABLE => 37
  | USER_PROPERTY => 38
  | MAXIMUM_PACKET_SIZE => 39
  | WILDCARD_SUBSCRIPTION_AVAILABLE => 40
  | SUBSCRIPTION_IDENTIFIERS_AVAILABLE => 41
  | SHARED_SUBSCRIPTION_AVAILABLE => 42
  end.

(** The enumerator of an integer, [code(n)]; [None] when [n] is the value
    of no enumerator. *)
Definition code_of_int (n : Z) : option code :=
  match n with
  | 1 => Some PAYLOAD_FORMAT_INDICATOR
  | 2 => Some MESSAGE_EXPIRY_INTERVAL
  | 3 => Some CONTENT_TYPE
  | 8 => Some RESPONSE_TOPIC
  | 9 => Some CORRELATION_DATA
  | 11 => Some SUBSCRIPTION_IDENTIFIER
  | 17 => Some SESSION_EXPIRY_INTERVAL
  | 18 => Some ASSIGNED_CLIENT_IDENTIFIER
  | 19 => Some SERVER_KEEP_ALIVE
  | 21 => Some AUTHENTICATION_METHOD
  | 22 => Some AUTHENTICATION_DATA
  | 23 => Some REQUEST_PROBLEM_INFORMATION
  | 24 => Some WILL_DELAY_INTERVAL
  | 25 => Some REQUEST_RESPONSE_INFORMATION
  | 26 => Some RESPONSE_INFORMATION
  | 28 => Some SERVER_REFERENCE
  | 31 => Some REASON_STRING
  | 33 => Some RECEIVE_MAXIMUM
  | 34 => Some TOPIC_ALIAS_MAXIMUM
  | 35 => Some TOPIC_ALIAS
  | 36 => Some MAXIMUM_QOS
  | 37 => Some RETAIN_AVAILABLE
  | 38 => Some USER_PROPERTY
  | 39 => Some MAXIMUM_PACKET_SIZE
  | 40 => Some WILDCARD_SUBSCRIPTION_AVAILABLE
  | 41 => Some SUBSCRIPTION_IDENTIFIERS_AVAILABLE
  | 42 => Some SHARED_SUBSCRIPTION_AVAILABLE
  | _ => None
  end.

#[global] Instance code_eq_dec : EqDecision code.
Proof. solve_decision. Defined.

#[global] Instance code_countable : Countable code.
Proof.
  refine (inj_countable MQTTPropertyCodes code_of_int _).
  intros c; destruct c; reflexivity.
Defined.

(** The object: the underlying C struct [prop_]. *)
Record property : Type := Build_property' { prop_ : MQTTProperty.t }.

(** Modelled from the spec: the private [property::copy] of properties.cpp,
    a deep copy of the C struct: the copy has the identifier and the value
    of the original, in storage of its own. *)
Definition copy (other : MQTTProperty.t) : MQTTProperty.t :=
  MQTTProperty.mk (MQTTProperty.identifier other) (MQTTProperty.value other).

(** [explicit property(const MQTTProperty& cprop) { copy(cprop); }] *)
Definition property_of_c (cprop : MQTTProperty.t) : property :=
  Build_property' (copy cprop).

(** [property(const property& other) { copy(other.prop_); }] *)
Definition property_copy (other : property) : property :=
  Build_property' (copy (prop_ other)).

Definition c_struct (p : property) : MQTTProperty.t := prop_ p.

(** [code type() const { return code(prop_.identifier); }] *)
Definition type (p : property) : option code :=
  code_of_int (MQTTProperty.identifier (prop_ p)).

(** ** Typed extraction, [get<T>(const property&)] *)

(** The type argument [T].  [T_other] is any type for which the header
    has no specialization. *)
Inductive cxx_type : Type :=
  | T_uint8 | T_uint16 | T_int16 | T_uint32 | T_int32
  | T_string | T_string_pair
  | T_other (name : string).

Inductive cxx_value : Type :=
  | V_uint8 (n : Z)
  | V_uint16 (n : Z)
  | V_int16 (n : Z)
  | V_uint32 (n : Z)
  | V_int32 (n : Z)
  | V_string (s : string)
  | V_string_pair (name value : string).

Definition get_uint8 (prop : property) : Z :=
  uint8_t (MQTTValue.byte (MQTTProperty.value (c_struct prop))).

Definition get_uint16 (prop : property) : Z :=
  uint16_t (MQTTValue.integer2 (MQTTProperty.value (c_struct prop))).

Definition get_int16 (prop : property) : Z :=
  int16_t (MQTTValue.integer2 (MQTTProperty.value (c_struct prop))).

Definition get_uint32 (prop : property) : Z :=
  uint32_t (MQTTValue.integer4 (MQTTProperty.value (c_struct prop))).

Definition get_int32 (prop : property) : Z :=
  int32_t (MQTTValue.integer4 (MQTTProperty.value (c_struct prop))).

(** [(!s.data) ? string() : string(s.data, s.len)] *)
Definition string_of_LenString (s : MQTTLenString.t) : outcome string :=
  match MQTTLenString.data s with
  | None => ok EmptyString
  | Some buf => string_of_buffer buf (MQTTLenString.len s)
  end.

Definition get_string (prop : property) : outcome string :=
  string_of_LenString (MQTTValue.data (MQTTProperty.value (c_struct prop))).

Definition get_string_pair (prop : property) : outcome (string * string) :=
  bind (string_of_LenString
          (MQTTValue.data (MQTTProperty.value (c_struct prop)))) (fun name =>
  bind (string_of_LenString
          (MQTTValue.value (MQTTProperty.value (c_struct prop)))) (fun value =>
  ok (name, value))).

(** The template and its specializations; the primary template throws. *)
Definition get (T : cxx_type) (prop : property) : outcome cxx_value :=
  match T with
  | T_uint8 => ok (V_uint8 (get_uint8 prop))
  | T_uint16 => ok (V_uint16 (get_uint16 prop))
  | T_int16 => ok (V_int16 (get_int16 prop))
  | T_uint32 => ok (V_uint32 (get_uint32 prop))
  | T_int32 => ok (V_int32 (get_int32 prop))
  | T_string => bind (get_string prop) (fun s => ok (V_string s))
  | T_string_pair =>
      bind (get_string_pair prop) (fun nv => ok (V_string_pair nv.1 nv.2))
  | T_other _ => throw bad_cast
  end.

Definition supported (T : cxx_type) : bool :=
  match T with T_other _ => false | _ => true end.

Definition is_integer_type (T : cxx_type) : bool :=
  match T with
  | T_uint8 | T_uint16 | T_int16 | T_uint32 | T_int32 => true
  | _ => false
  end.

(** ** The C functions on property lists

    The functions of the Paho C library that the header calls.  Their
    source (MQTTProperties.c) is not among the sources. *)

(** Modelled from the spec: [MQTTProperties_add], "deep-copies the
    argument's encoded form into the list's own storage; appends at the
    end" (section 4.2). *)
Definition MQTTProperties_add (props : MQTTProperties.t)
    (prop : MQTTProperty.t) : MQTTProperties.t :=
  MQTTProperties.mk (MQTTProperties.count props + 1)
    (cells props ++ [copy prop]).

(** Modelled from the spec: [MQTTProperties_free], "releases all owned
    buffers and resets to empty" (section 4.2). *)
Definition MQTTProperties_free (props : MQTTProperties.t) : MQTTProperties.t :=
  memset_zero.

(** Modelled from the spec: [MQTTProperties_copy], "deep-copies every
    element (and thus every owned buffer) into new storage"
    (section 4.2). *)
Definition MQTTProperties_copy (props : MQTTProperties.t) : MQTTProperties.t :=
  MQTTProperties.mk (MQTTProperties.count props) (copy <$> cells props).

(** The scan behind [MQTTProperties_hasProperty]. *)
Fixpoint has_scan (l : list MQTTProperty.t) (propid : Z) : Z :=
  match l with
  | [] => 0
  | c :: rest =>
      if MQTTProperty.identifier c =? propid then 1 else has_scan rest propid
  end.

(** Modelled from the spec: [MQTTProperties_hasProperty], the "O(n) scan
    for any element with matching code" (section 4.2); non-zero when one
    is found. *)
Definition MQTTProperties_hasProperty (props : MQTTProperties.t)
    (propid : Z) : Z :=
  has_scan (cells props) propid.

(** The scan behind [MQTTProperties_propertyCount]. *)
Fixpoint count_scan (l : list MQTTProperty.t) (propid : Z) : Z :=
  match l with
  | [] => 0
  | c :: rest =>
      if MQTTProperty.identifier c =? propid
      then 1 + count_scan rest propid
      else count_scan rest propid
  end.

(** Modelled from the spec: [MQTTProperties_propertyCount], the "count of
    elements with matching code" (section 4.2). *)
Definition MQTTProperties_propertyCount (props : MQTTProperties.t)
    (propid : Z) : Z :=
  count_scan (cells props) propid.

(** The scan behind [MQTTProperties_getPropertyAt]: [index] counts the
    matching cells still to skip. *)
Fixpoint at_scan (l : list MQTTProperty.t) (propid : Z) (index : Z)
    : option MQTTProperty.t :=
  match l with
  | [] => None
  | c :: rest =>
      if MQTTProperty.identifier c =? propid
      then if index =? 0 then Some c else at_scan rest propid (index - 1)
      else at_scan rest propid index
  end.

(** Modelled from the spec: [MQTTProperties_getPropertyAt], which "finds
    the occurrence-th (0-based) element matching code in list order"
    (section 4.2); the result is the pointer to the cell, [None] for the
    null pointer when there is no such occurrence. *)
Definition MQTTProperties_getPropertyAt (props : MQTTProperties.t)
    (propid : Z) (index : Z) : option MQTTProperty.t :=
  at_scan (cells props) propid index.

(** ** class properties *)

Record properties : Type := Build_properties' { props_ : MQTTProperties.t }.

Definition DFLT_C_STRUCT : MQTTProperties.t := MQTTProperties_initializer.

(** [properties() {}], with the member initializer
    [props_{DFLT_C_STRUCT}]. *)
Definition properties_default : properties := Build_properties' DFLT_C_STRUCT.

(** [properties(const properties& other)] *)
Definition properties_copy (other : properties) : properties :=
  Build_properties' (MQTTProperties_copy (props_ other)).

(** [properties(properties&& other)]: the new object and what is left of
    [other]. *)
Definition properties_move (other : properties) : properties * properties :=
  (Build_properties' (props_ other), Build_properties' memset_zero).

(** Modelled from the spec: the move assignment
    [properties::operator=(properties&&)] of properties.cpp, which
    "transfers the entire backing store; source becomes empty"
    (section 4.2).  The result is the assigned object and what is left of
    [rhs]. *)
Definition properties_move_assign (this rhs : properties)
    : properties * properties :=
  (Build_properties' (props_ rhs), properties_default).

(** Modelled from the spec: the copy assignment
    [properties::operator=(const properties&)] of properties.cpp, which
    "deep-copies every element into new storage" (section 4.2). *)
Definition properties_copy_assign (this rhs : properties) : properties :=
  Build_properties' (MQTTProperties_copy (props_ rhs)).

Definition empty (p : properties) : bool :=
  MQTTProperties.count (props_ p) =? 0.

Definition size (p : properties) : Z :=
  size_t (MQTTProperties.count (props_ p)).

(** The elements of the list, in order. *)
Definition elements (p : properties) : list MQTTProperty.t :=
  cells (props_ p).

(** [a[i]] for a pointer [a] to the cells [mem]; undefined outside them. *)
Definition read (mem : list MQTTProperty.t) (i : Z) : outcome MQTTProperty.t :=
  if i <? 0 then undefined
  else match mem !! Z.to_nat i with
       | Some c => ok c
       | None => undefined
       end.

(** [operator[]] *)
Definition subscript (p : properties) (i : Z) : outcome property :=
  match read (MQTTProperties.array (props_ p)) i with
  | ok c => ok (property_of_c c)
  | throw e => throw e
  | undefined => undefined
  end.

(** [at] *)
Definition at_ (p : properties) (i : Z) : outcome property :=
  if i <? size_t (MQTTProperties.count (props_ p))
  then subscript p i
  else throw (out_of_range "property index").

Definition add (p : properties) (prop : property) : properties :=
  Build_properties' (MQTTProperties_add (props_ p) (c_struct prop)).

Definition clear (p : properties) : properties :=
  Build_properties' (MQTTProperties_free (props_ p)).

Definition contains (p : properties) (propid : code) : bool :=
  negb (MQTTProperties_hasProperty (props_ p) (MQTTPropertyCodes propid) =? 0).

Definition count (p : properties) (propid : code) : Z :=
  size_t (MQTTProperties_propertyCount (props_ p) (MQTTPropertyCodes propid)).

(** Modelled from the spec: the member [properties::get] of
    properties.cpp, which "finds the occurrence-th (0-based) element
    matching code in list order" and "fails with PropertyNotFound when no
    such occurrence exists" (section 4.2). *)
Definition properties_get (p : properties) (propid : code) (idx : Z)
    : outcome property :=
  match MQTTProperties_getPropertyAt (props_ p) (MQTTPropertyCodes propid) idx with
  | Some prop => ok (property_of_c prop)
  | None => throw PropertyNotFound
  end.

(** The free function [get<T>(const properties&, property::code, size_t)]. *)
Definition get_from (T : cxx_type) (props : properties) (propid : code)
    (idx : Z) : outcome cxx_value :=
  match MQTTProperties_getPropertyAt (props_ props) (MQTTPropertyCodes propid)
          (int idx) with
  | None => throw bad_cast
  | Some prop => get T (property_of_c prop)
  end.

(** [get<T>(const properties&, property::code)] *)
Definition get_from_first (T : cxx_type) (props : properties) (propid : code)
    : outcome cxx_value :=
  get_from T props propid 0.

(** *** const_iterator *)

(** [curr_] is a pointer into the array of the list: it is kept as its
    distance, in cells, from [props_.array].  [scratch] is the mutable
    member [prop_], [None] until the first dereference. *)
Record const_iterator : Type := Build_const_iterator {
  curr_ : Z;
  scratch : option property
}.

(** [const_iterator(const MQTTProperty* curr) : curr_{curr} {}] *)
Definition const_iterator_at (curr : Z) : const_iterator :=
  Build_const_iterator curr None.

(** [operator*]: stores the property of the current cell in [prop_] and
    returns it. *)
Definition deref (mem : list MQTTProperty.t) (it : const_iterator)
    : outcome (property * const_iterator) :=
  match read mem (curr_ it) with
  | ok c =>
      let p := property_of_c c in
      ok (p, Build_const_iterator (curr_ it) (Some p))
  | throw e => throw e
  | undefined => undefined
  end.

(** Prefix [operator++] *)
Definition incr (it : const_iterator) : const_iterator :=
  Build_const_iterator (curr_ it + 1) (scratch it).

(** Postfix [operator++]: the copy made before the step, and the iterator
    after it. *)
Definition post_incr (it : const_iterator) : const_iterator * const_iterator :=
  let tmp := it in
  (tmp, Build_const_iterator (curr_ it + 1) (scratch it)).

(** [operator!=] *)
Definition neq (it other : const_iterator) : bool :=
  negb (curr_ it =? curr_ other).

Definition begin (p : properties) : const_iterator := const_iterator_at 0.

Definition cbegin (p : properties) : const_iterator := begin p.

Definition end_ (p : properties) : const_iterator :=
  const_iterator_at (0 + size p).

Definition cend (p : properties) : const_iterator := end_ p.

(** The loop [for (it = first; it != last; ++it)] that appends the
    dereferenced iterator to the output at each turn, over the cells [mem], run for at most [fuel] tests of the condition: [None]
    when the fuel runs out before the loop ends. *)
Fixpoint range_for (fuel : nat) (mem : list MQTTProperty.t)
    (it last : const_iterator) : option (outcome (list property)) :=
  match fuel with
  | O => None
  | S fuel' =>
      if neq it last then
        match deref mem it with
        | ok (p, it') =>
            match range_for fuel' mem (incr it') last with
            | Some (ok out) => Some (ok (p :: out))
            | r => r
            end
        | throw e => Some (throw e)
        | undefined => Some undefined
        end
      else Some (ok [])
  end.

(** A complete forward iteration, [begin()] to [end()]. *)
Definition iterate (fuel : nat) (p : properties)
    : option (outcome (list property)) :=
  range_for fuel (MQTTProperties.array (props_ p)) (begin p) (end_ p).

(** ** Construction of a property from a value

    The constructors [property(code, int32_t)], [property(code, string_ref)]
    and [property(code, string_ref, string_ref)] are declared in the header
    and defined in properties.cpp, and so is [type_name]. *)

(** The encodings of section 3. *)
Inductive ValueKind : Type :=
  | Byte
  | TwoByteInt
  | FourByteInt
  | VariableByteInt
  | BinaryData
  | Utf8String
  | Utf8StringPair.

#[global] Instance ValueKind_eq_dec : EqDecision ValueKind.
Proof. solve_decision. Defined.

Definition is_integer_kind (k : ValueKind) : bool :=
  match k with
  | Byte | TwoByteInt | FourByteInt | VariableByteInt => true
  | _ => false
  end.

Definition is_buffer_kind (k : ValueKind) : bool :=
  match k with
  | BinaryData | Utf8String => true
  | _ => false
  end.

Definition is_pair_kind (k : ValueKind) : bool :=
  match k with
  | Utf8StringPair => true
  | _ => false
  end.

Definition no_buffer : MQTTLenString.t := MQTTLenString.mk 0 None.

Definition buffer_of (s : string) : MQTTLenString.t :=
  MQTTLenString.mk (Z.of_nat (String.length s)) (Some s).

Section Construction.

(** The kind of each code: the table of the C library
    ([MQTTProperty_getType]), which is not among the sources. *)
Variable kind_of : code -> ValueKind.

(** [property::TYPE_NAME], declared in the header and defined in
    properties.cpp. *)
Variable TYPE_NAME : gmap code string.

(** Modelled from the spec: [property(code, intValue)], "valid only if
    code's kind is Byte, TwoByteInt, FourByteInt or VariableByteInt;
    stores the narrowed/widened integer" with "truncation semantics
    consistent with the kind's byte width" (section 4.1); otherwise it
    fails with InvalidPropertyKind (section 7). *)
Definition property_of_int (c : code) (val : Z) : outcome property :=
  let stored (v : MQTTValue.t) :=
    ok (Build_property' (MQTTProperty.mk (MQTTPropertyCodes c) v)) in
  match kind_of c with
  | Byte =>
      stored (MQTTValue.mk (uint8_t val) 0 0 no_buffer no_buffer)
  | TwoByteInt =>
      stored (MQTTValue.mk 0 (uint16_t val) 0 no_buffer no_buffer)
  | FourByteInt | VariableByteInt =>
      stored (MQTTValue.mk 0 0 (uint32_t val) no_buffer no_buffer)
  | _ => throw InvalidPropertyKind
  end.

(** Modelled from the spec: [property(code, bytes)], "valid only if kind
    is BinaryData or Utf8String"; the property owns a buffer with the
    bytes (section 4.1); otherwise it fails with InvalidPropertyKind. *)
Definition property_of_string (c : code) (val : string) : outcome property :=
  if is_buffer_kind (kind_of c)
  then ok (Build_property' (MQTTProperty.mk (MQTTPropertyCodes c)
             (MQTTValue.mk 0 0 0 (buffer_of val) no_buffer)))
  else throw InvalidPropertyKind.

(** Modelled from the spec: [property(code, name, value)], "valid only
    if kind == Utf8StringPair; owns both buffers independently"
    (section 4.1); otherwise it fails with InvalidPropertyKind. *)
Definition property_of_pair (c : code) (name val : string) : outcome property :=
  if is_pair_kind (kind_of c)
  then ok (Build_property' (MQTTProperty.mk (MQTTPropertyCodes c)
             (MQTTValue.mk 0 0 0 (buffer_of name) (buffer_of val))))
  else throw InvalidPropertyKind.

(** Modelled from the spec: [type_name], the "lookup in a fixed
    code->name table" (section 4.1); [None] when the table has no entry
    for the code, which the spec calls a contract violation. *)
Definition type_name (p : property) : option string :=
  match type p with
  | Some c => TYPE_NAME !! c
  | None => None
  end.

End Construction.

(** ** class connect_options *)

Module MQTTAsync_connectOptions.
(** Modelled from the spec: the C struct [MQTTAsync_connectOptions] of
    MQTTAsync.h, which is not among the sources, with the fields the
    header reads ("unrelated connection/session fields",
    section 4.3). *)
Record t : Type := mk {
  socket_fwmark : Z;
  keepAliveInterval : Z;
  connectTimeout : Z;
  maxInflight : Z;
  cleansession : Z;
  cleanstart : Z;
  MQTTVersion : Z;
  automaticReconnect : Z;
  minRetryInterval : Z;
  maxRetryInterval : Z
}.
End MQTTAsync_connectOptions.

Module connect_options.
Section Fields.

(** The classes of the other headers, which the property accessors do
    not look into. *)
Context {will_options ssl_options token_ptr const_string_collection_ptr
         name_value_collection : Type}.

(** The data members.  [string_ref] and [binary_ref] are references to a
    buffer that may be null. *)
Record t : Type := mk {
  opts_ : MQTTAsync_connectOptions.t;
  will_ : will_options;
  ssl_ : ssl_options;
  userName_ : option string;
  password_ : option string;
  tok_ : token_ptr;
  serverURIs_ : const_string_collection_ptr;
  props_ : properties;
  httpHeaders_ : name_value_collection;
  httpProxy_ : string;
  httpsProxy_ : string
}.

Definition get_socket_fwmark (c : t) : Z :=
  MQTTAsync_connectOptions.socket_fwmark (opts_ c).
Definition get_keep_alive_interval (c : t) : Z :=
  MQTTAsync_connectOptions.keepAliveInterval (opts_ c).
Definition get_connect_timeout (c : t) : Z :=
  MQTTAsync_connectOptions.connectTimeout (opts_ c).
Definition get_user_name (c : t) : string :=
  match userName_ c with Some s => s | None => EmptyString end.
Definition get_password (c : t) : option string := password_ c.
Definition get_password_str (c : t) : string :=
  match password_ c with Some s => s | None => EmptyString end.
Definition get_max_inflight (c : t) : Z :=
  MQTTAsync_connectOptions.maxInflight (opts_ c).
Definition get_will_options (c : t) : will_options := will_ c.
Definition get_ssl_options (c : t) : ssl_options := ssl_ c.
Definition to_bool (n : Z) : bool := negb (n =? 0).
Definition is_clean_session (c : t) : bool :=
  to_bool (MQTTAsync_connectOptions.cleansession (opts_ c)).
Definition is_clean_start (c : t) : bool :=
  to_bool (MQTTAsync_connectOptions.cleanstart (opts_ c)).
Definition get_token (c : t) : token_ptr := tok_ c.
Definition get_servers (c : t) : const_string_collection_ptr := serverURIs_ c.
Definition get_mqtt_version (c : t) : Z :=
  MQTTAsync_connectOptions.MQTTVersion (opts_ c).
Definition get_automatic_reconnect (c : t) : bool :=
  to_bool (MQTTAsync_connectOptions.automaticReconnect (opts_ c)).
Definition get_min_retry_interval (c : t) : Z :=
  MQTTAsync_connectOptions.minRetryInterval (opts_ c).
Definition get_max_retry_interval (c : t) : Z :=
  MQTTAsync_connectOptions.maxRetryInterval (opts_ c).
Definition get_properties (c : t) : properties := props_ c.
Definition get_http_headers (c : t) : name_value_collection := httpHeaders_ c.
Definition get_http_proxy (c : t) : string := httpProxy_ c.
Definition get_https_proxy (c : t) : string := httpsProxy_ c.

(** Modelled from the spec: [set_properties(const properties&)] of
    connect_options.cpp, "set_properties(list) (copy)" (section 4.3):
    the list is copy-assigned to the member [props_]. *)
Definition set_properties (c : t) (props : properties) : t :=
  mk (opts_ c) (will_ c) (ssl_ c) (userName_ c) (password_ c) (tok_ c)
     (serverURIs_ c) (properties_copy_assign (props_ c) props)
     (httpHeaders_ c) (httpProxy_ c) (httpsProxy_ c).

End Fields.
End connect_options.

(** ** Lookup by code, stated on the elements *)

(** The cell carries the identifier [propid]. *)
Definition has_code (propid : Z) (c : MQTTProperty.t) : Prop :=
  MQTTProperty.identifier c = propid.

#[global] Instance has_code_dec (propid : Z) (c : MQTTProperty.t)
  : Decision (has_code propid c).
Proof. unfold has_code. apply _. Defined.

(** The elements of the list that carry the code, in list order. *)
Definition occurrences (p : properties) (propid : code) : list MQTTProperty.t :=
  filter (has_code (MQTTPropertyCodes propid)) (elements p).

(** What it would mean for a caller of [get<T>(list, code, occurrence)] to
    tell an absent property from a request for an unsupported type: no
    call of the first kind ends as a call of the second kind does. *)
Definition failures_distinguishable : Prop :=
  forall (T1 T2 : cxx_type) (ps1 ps2 : properties) (c : code) (i : Z),
    supported T1 = true -> occurrences ps1 c !! Z.to_nat i = None ->
    supported T2 = false -> is_Some (occurrences ps2 c !! Z.to_nat i) ->
    get_from T1 ps1 c i <> get_from T2 ps2 c i.

(** What a caller can observe of a list that is empty: the answers of
    [size], [empty], [contains], [count], [at], [get] and of a forward
    iteration; they are those of [properties()]. *)
Definition observably_empty (a : properties) : Prop :=
  size a = 0
  /\ empty a = true
  /\ elements a = []
  /\ (forall c, contains a c = false)
  /\ (forall c, count a c = 0)
  /\ begin a = end_ a
  /\ (forall fuel, iterate (S fuel) a = Some (ok []))
  /\ (forall i, at_ a i = at_ properties_default i)
  /\ (forall c i, properties_get a c i = throw PropertyNotFound)
  /\ (forall T c i, get_from T a c i = get_from T properties_default c i).

(** ** Sample values *)

(** A user property whose two buffers are null. *)
Definition null_pair_property : property :=
  Build_property' (MQTTProperty.mk 38
    (MQTTValue.mk 0 0 0 (MQTTLenString.mk 5 None) (MQTTLenString.mk 0 None))).

(** A list of two elements: a content type and a maximum QoS. *)
Definition two_cells : properties :=
  Build_properties' (MQTTProperties.mk 2
    [ MQTTProperty.mk 3 (MQTTValue.mk 0 0 0 (buffer_of "text") no_buffer);
      MQTTProperty.mk 36 (MQTTValue.mk 1 0 0 no_buffer no_buffer) ]).

(** Four properties with the codes user-property, content-type,
    user-property and maximum-qos. *)
Definition sample_user1 : property :=
  Build_property' (MQTTProperty.mk 38
    (MQTTValue.mk 0 0 0 (buffer_of "k1") (buffer_of "v1"))).

Definition sample_content : property :=
  Build_property' (MQTTProperty.mk 3
    (MQTTValue.mk 0 0 0 (buffer_of "text") no_buffer)).

Definition sample_user2 : property :=
  Build_property' (MQTTProperty.mk 38
    (MQTTValue.mk 0 0 0 (buffer_of "k2") (buffer_of "v2"))).

Definition sample_qos : property :=
  Build_property' (MQTTProperty.mk 36
    (MQTTValue.mk 1 0 0 no_buffer no_buffer)).

Definition sample_list : properties :=
  add (add (add (add properties_default sample_user1) sample_content)
         sample_user2) sample_qos.

(** A kind table for the samples.  It gives content-type the kind
    Utf8String, as section 8 does; the other rows give each code the
    encoding MQTT v5 assigns to it. *)
Definition sample_kind_of (c : code) : ValueKind :=
  match c with
  | PAYLOAD_FORMAT_INDICATOR | REQUEST_PROBLEM_INFORMATION
  | REQUEST_RESPONSE_INFORMATION | MAXIMUM_QOS | RETAIN_AVAILABLE
  | WILDCARD_SUBSCRIPTION_AVAILABLE | SUBSCRIPTION_IDENTIFIERS_AVAILABLE
  | SHARED_SUBSCRIPTION_AVAILABLE => Byte
  | SERVER_KEEP_ALIVE | RECEIVE_MAXIMUM | TOPIC_ALIAS_MAXIMUM
  | TOPIC_ALIAS => TwoByteInt
  | MESSAGE_EXPIRY_INTERVAL | SESSION_EXPIRY_INTERVAL | WILL_DELAY_INTERVAL
  | MAXIMUM_PACKET_SIZE => FourByteInt
  | SUBSCRIPTION_IDENTIFIER => VariableByteInt
  | CORRELATION_DATA | AUTHENTICATION_DATA => BinaryData
  | CONTENT_TYPE | RESPONSE_TOPIC | ASSIGNED_CLIENT_IDENTIFIER
  | AUTHENTICATION_METHOD | RESPONSE_INFORMATION | SERVER_REFERENCE
  | REASON_STRING => Utf8String
  | USER_PROPERTY => Utf8StringPair
  end.

(** A name table for the samples. *)
Definition sample_TYPE_NAME : gmap code string :=
  {[ CONTENT_TYPE := "ContentType"; MAXIMUM_QOS := "MaximumQoS";
     USER_PROPERTY := "UserProperty" ]}.

(** Connect options for the samples; the classes of the other headers
    are taken to be [unit]. *)
Definition sample_options : @connect_options.t unit unit unit unit unit :=
  connect_options.mk
    (MQTTAsync_connectOptions.mk 0 60 30 65535 1 0 0 0 1 60)
    tt tt (Some "user") None tt tt properties_default tt "" "".

(** ** The setters of connect_options that the header defines *)

Module connect_options_setters.
Section Setters.

Context {will_options ssl_options token_ptr const_string_collection_ptr
         name_value_collection : Type}.

Local Abbreviation t :=
  (@connect_options.t will_options ssl_options token_ptr
     const_string_collection_ptr name_value_collection).

(** An assignment to a field of [opts_] leaves the other data members as
    they are: the object with the C struct [o] in place of [opts_]. *)
Definition with_opts (c : t) (o : MQTTAsync_connectOptions.t) : t :=
  connect_options.mk o (connect_options.will_ c) (connect_options.ssl_ c)
    (connect_options.userName_ c) (connect_options.password_ c)
    (connect_options.tok_ c) (connect_options.serverURIs_ c)
    (connect_options.props_ c) (connect_options.httpHeaders_ c)
    (connect_options.httpProxy_ c) (connect_options.httpsProxy_ c).

(** [opts_.socket_fwmark = fwmark] *)
Definition set_socket_fwmark (c : t) (fwmark : Z) : t :=
  let o := connect_options.opts_ c in
  with_opts c
    (MQTTAsync_connectOptions.mk fwmark
       (MQTTAsync_connectOptions.keepAliveInterval o)
       (MQTTAsync_connectOptions.connectTimeout o)
       (MQTTAsync_connectOptions.maxInflight o)
       (MQTTAsync_connectOptions.cleansession o)
       (MQTTAsync_connectOptions.cleanstart o)
       (MQTTAsync_connectOptions.MQTTVersion o)
       (MQTTAsync_connectOptions.automaticReconnect o)
       (MQTTAsync_connectOptions.minRetryInterval o)
       (MQTTAsync_connectOptions.maxRetryInterval o)).

(** [opts_.keepAliveInterval = keepAliveInterval] *)
Definition set_keep_alive_interval (c : t) (keepAliveInterval : Z) : t :=
  let o := connect_options.opts_ c in
  with_opts c
    (MQTTAsync_connectOptions.mk
       (MQTTAsync_connectOptions.socket_fwmark o)
       keepAliveInterval
       (MQTTAsync_connectOptions.connectTimeout o)
       (MQTTAsync_connectOptions.maxInflight o)
       (MQTTAsync_connectOptions.cleansession o)
       (MQTTAsync_connectOptions.cleanstart o)
       (MQTTAsync_connectOptions.MQTTVersion o)
       (MQTTAsync_connectOptions.automaticReconnect o)
       (MQTTAsync_connectOptions.minRetryInterval o)
       (MQTTAsync_connectOptions.maxRetryInterval o)).

(** [opts_.connectTimeout = timeout] *)
Definition set_connect_timeout (c : t) (timeout : Z) : t :=
  let o := connect_options.opts_ c in
  with_opts c
    (MQTTAsync_connectOptions.mk
       (MQTTAsync_connectOptions.socket_fwmark o)
       (MQTTAsync_connectOptions.keepAliveInterval o)
       timeout
       (MQTTAsync_connectOptions.maxInflight o)
       (MQTTAsync_connectOptions.cleansession o)
       (MQTTAsync_connectOptions.cleanstart o)
       (MQTTAsync_connectOptions.MQTTVersion o)
       (MQTTAsync_connectOptions.automaticReconnect o)
       (MQTTAsync_connectOptions.minRetryInterval o)
       (MQTTAsync_connectOptions.maxRetryInterval o)).

(** [opts_.maxInflight = n] *)
Definition set_max_inflight (c : t) (n : Z) : t :=
  let o := connect_options.opts_ c in
  with_opts c
    (MQTTAsync_connectOptions.mk
       (MQTTAsync_connectOptions.socket_fwmark o)
       (MQTTAsync_connectOptions.keepAliveInterval o)
       (MQTTAsync_connectOptions.connectTimeout o)
       n
       (MQTTAsync_connectOptions.cleansession o)
       (MQTTAsync_connectOptions.cleanstart o)
       (MQTTAsync_connectOptions.MQTTVersion o)
       (MQTTAsync_connectOptions.automaticReconnect o)
       (MQTTAsync_connectOptions.minRetryInterval o)
       (MQTTAsync_connectOptions.maxRetryInterval o)).

(** The durations of [std::chrono] and [to_seconds_count] of types.h,
    which is not among the sources: any function that gives a duration
    its count of seconds. *)
Context {duration : Type}.
Variable to_seconds_count : duration -> Z.

(** [set_keep_alive_interval((int)to_seconds_count(interval))] *)
Definition set_keep_alive_interval_duration (c : t) (interval : duration) : t :=
  set_keep_alive_interval c (int (to_seconds_count interval)).

(** [set_connect_timeout((int)to_seconds_count(timeout))] *)
Definition set_connect_timeout_duration (c : t) (timeout : duration) : t :=
  set_connect_timeout c (int (to_seconds_count timeout)).

(** [to_int] of types.h, which is not among the sources: any function
    from [bool] to [int]. *)
Variable to_int : bool -> Z.

(** [set_automatic_reconnect(bool on)]:
    [opts_.automaticReconnect = to_int(on)] *)
Definition set_automatic_reconnect (c : t) (on : bool) : t :=
  let o := connect_options.opts_ c in
  with_opts c
    (MQTTAsync_connectOptions.mk
       (MQTTAsync_connectOptions.socket_fwmark o)
       (MQTTAsync_connectOptions.keepAliveInterval o)
       (MQTTAsync_connectOptions.connectTimeout o)
       (MQTTAsync_connectOptions.maxInflight o)
       (MQTTAsync_connectOptions.cleansession o)
       (MQTTAsync_connectOptions.cleanstart o)
       (MQTTAsync_connectOptions.MQTTVersion o)
       (to_int on)
       (MQTTAsync_connectOptions.minRetryInterval o)
       (MQTTAsync_connectOptions.maxRetryInterval o)).

End Setters.
End connect_options_setters.

(** ** What the getters of connect_options show *)

Section Observations.

Context {will_options ssl_options token_ptr const_string_collection_ptr
         name_value_collection : Type}.

Local Abbreviation options :=
  (@connect_options.t will_options ssl_options token_ptr
     const_string_collection_ptr name_value_collection).

(** The answers of the getters that read the C struct [opts_], in the
    order of the header: fwmark, keep-alive, connect timeout, max
    in-flight, clean session, clean start, MQTT version, automatic
    reconnect, minimum and maximum retry interval. *)
Definition opts_getters (c : options)
  : Z * Z * Z * Z * bool * bool * Z * bool * Z * Z :=
  (connect_options.get_socket_fwmark c,
   connect_options.get_keep_alive_interval c,
   connect_options.get_connect_timeout c,
   connect_options.get_max_inflight c,
   connect_options.is_clean_session c,
   connect_options.is_clean_start c,
   connect_options.get_mqtt_version c,
   connect_options.get_automatic_reconnect c,
   connect_options.get_min_retry_interval c,
   connect_options.get_max_retry_interval c).

(** The data members other than [opts_] are the same in [c] and [c']. *)
Definition other_members_kept (c c' : options) : Prop :=
  connect_options.will_ c' = connect_options.will_ c
  /\ connect_options.ssl_ c' = connect_options.ssl_ c
  /\ connect_options.userName_ c' = connect_options.userName_ c
  /\ connect_options.password_ c' = connect_options.password_ c
  /\ connect_options.tok_ c' = connect_options.tok_ c
  /\ connect_options.serverURIs_ c' = connect_options.serverURIs_ c
  /\ connect_options.props_ c' = connect_options.props_ c
  /\ connect_options.httpHeaders_ c' = connect_options.httpHeaders_ c
  /\ connect_options.httpProxy_ c' = connect_options.httpProxy_ c
  /\ connect_options.httpsProxy_ c' = connect_options.httpsProxy_ c.

End Observations.

(** ** Buffers with a negative length *)

(** The buffer has a pointer that is not null and a negative length: the
    one state in which building a string from it throws. *)
Definition negative_length (s : MQTTLenString.t) : Prop :=
  MQTTLenString.data s <> None /\ MQTTLenString.len s < 0.

(** ** More sample values *)

(** A content-type cell whose buffer has the length -1. *)
Definition sample_negative_length : property :=
  Build_property' (MQTTProperty.mk 3
    (MQTTValue.mk 0 0 0 (MQTTLenString.mk (-1) (Some "text")) no_buffer)).

(** A list of one cell, the one above. *)
Definition sample_negative_list : properties :=
  Build_properties' (MQTTProperties.mk 1 [c_struct sample_negative_length]).

(** A content-type cell whose buffer holds more characters than its
    length says: "text/plain" with length 4. *)
Definition sample_long_buffer : property :=
  Build_property' (MQTTProperty.mk 3
    (MQTTValue.mk 0 0 0 (MQTTLenString.mk 4 (Some "text/plain")) no_buffer)).

(** A list with room for two cells of which none is in use. *)
Definition sample_unused_cells : properties :=
  Build_properties' (MQTTProperties.mk 0 (MQTTProperties.array (props_ two_cells))).

(** [to_int] for the samples. *)
Definition sample_to_int (b : bool) : Z := if b then 1 else 0.

(** * Properties of the embedding *)

(** ** Conversions *)

Lemma size_t_small (x : Z) : 0 <= x < 2 ^ 64 -> size_t x = x.
Proof. intros H. unfold size_t. apply Z.mod_small. exact H. Qed.

Lemma to_signed_range (w x : Z) :
  0 < w -> - 2 ^ (w - 1) <= to_signed w x < 2 ^ (w - 1).
Proof.
  intros Hw. unfold to_signed.
  assert (E : 2 ^ w = 2 * 2 ^ (w - 1)).
  { replace w with (Z.succ (w - 1)) at 1 by lia. apply Z.pow_succ_r. lia. }
  assert (P : 0 < 2 ^ (w - 1)) by (apply Z.pow_pos_nonneg; lia).
  pose proof (Z.mod_pos_bound (x + 2 ^ (w - 1)) (2 ^ w)) as B.
  lia.
Qed.

Lemma to_signed_mod (w x : Z) : to_signed w (x mod 2 ^ w) = to_signed w x.
Proof. unfold to_signed. rewrite Zplus_mod_idemp_l. reflexivity. Qed.

Lemma to_signed_congr (w x : Z) : to_signed w x mod 2 ^ w = x mod 2 ^ w.
Proof.
  unfold to_signed. rewrite Zminus_mod_idemp_l. f_equal. lia.
Qed.

Lemma to_signed_small (w x : Z) :
  0 < w -> 0 <= x < 2 ^ (w - 1) -> to_signed w x = x.
Proof.
  intros Hw Hx. unfold to_signed.
  assert (E : 2 ^ w = 2 * 2 ^ (w - 1)).
  { replace w with (Z.succ (w - 1)) at 1 by lia. apply Z.pow_succ_r. lia. }
  rewrite Z.mod_small; lia.
Qed.

(** ** The cells of a list *)

Lemma copy_id (c : MQTTProperty.t) : copy c = c.
Proof. destruct c; reflexivity. Qed.

Lemma wf_size (p : properties) :
  wf_MQTTProperties (props_ p) -> size p = MQTTProperties.count (props_ p).
Proof.
  intros [Hc _]. unfold size. apply size_t_small. lia.
Qed.

Lemma wf_length_cells (c : MQTTProperties.t) :
  wf_MQTTProperties c ->
  Z.of_nat (length (cells c)) = MQTTProperties.count c.
Proof.
  intros [Hc Hl]. unfold cells. rewrite length_take_le.
  - apply Z2Nat.id. lia.
  - apply Nat2Z.inj_le. rewrite Z2Nat.id; lia.
Qed.

Lemma read_cells (c : MQTTProperties.t) (i : Z) :
  0 <= i < MQTTProperties.count c ->
  read (MQTTProperties.array c) i = read (cells c) i.
Proof.
  intros Hi. unfold read, cells.
  rewrite lookup_take_lt by lia. reflexivity.
Qed.

Lemma read_in_range (mem : list MQTTProperty.t) (i : Z) :
  0 <= i < Z.of_nat (length mem) ->
  exists c, mem !! Z.to_nat i = Some c /\ read mem i = ok c.
Proof.
  intros Hi. unfold read.
  destruct (mem !! Z.to_nat i) as [c|] eqn:E.
  - exists c. split; [reflexivity|].
    destruct (i <? 0) eqn:Hneg; [apply Z.ltb_lt in Hneg; lia | reflexivity].
  - apply lookup_ge_None in E. lia.
Qed.

(** ** Signed extraction *)

(** C7. For every property, the deprecated signed extractors are the
    two's-complement reinterpretation of the unsigned ones:
    [get<int16_t>] is [get<uint16_t>] converted to [int16_t], it lies in
    the range of [int16_t] and is equal to [get<uint16_t>] modulo 2^16;
    likewise [get<int32_t>] and [get<uint32_t>] with 32 bits. *)
Theorem signed_get_reinterprets_unsigned (p : property) :
  (get_int16 p = int16_t (get_uint16 p)
   /\ - 2 ^ 15 <= get_int16 p < 2 ^ 15
   /\ get_int16 p mod 2 ^ 16 = get_uint16 p
   /\ get T_int16 p = ok (V_int16 (int16_t (get_uint16 p))))
  /\
  (get_int32 p = int32_t (get_uint32 p)
   /\ - 2 ^ 31 <= get_int32 p < 2 ^ 31
   /\ get_int32 p mod 2 ^ 32 = get_uint32 p
   /\ get T_int32 p = ok (V_int32 (int32_t (get_uint32 p)))).
Proof.
  unfold get, get_int16, get_uint16, get_int32, get_uint32.
  unfold int16_t, uint16_t, int32_t, uint32_t.
  set (x2 := MQTTValue.integer2 _). set (x4 := MQTTValue.integer4 _).
  pose proof (to_signed_mod 16 x2) as E2. pose proof (to_signed_mod 32 x4) as E4.
  pose proof (to_signed_range 16 x2 ltac:(lia)) as R2.
  pose proof (to_signed_range 32 x4 ltac:(lia)) as R4.
  pose proof (to_signed_congr 16 x2) as C2.
  pose proof (to_signed_congr 32 x4) as C4.
  change (16 - 1) with 15 in R2. change (32 - 1) with 31 in R4.
  repeat split; try congruence; try tauto.
Qed.

(** ** String extraction from a null buffer *)

(** C10. When the data pointer of the C value is null, [get<string>]
    returns the empty string, whatever the length field holds.
    [get<string_pair>] returns a pair whose name is empty when the name
    pointer is null and whose value is empty when the value pointer is
    null; with both pointers null it returns the pair of empty strings.
    In these cases the extractors return a value: nothing is read
    through the null pointer. *)
Theorem get_string_null_buffer (p : property) :
  (MQTTLenString.data (MQTTValue.data (MQTTProperty.value (c_struct p))) = None ->
     get_string p = ok EmptyString
     /\ get T_string p = ok (V_string EmptyString)
     /\ (forall v,
           string_of_LenString
             (MQTTValue.value (MQTTProperty.value (c_struct p))) = ok v ->
           get_string_pair p = ok (EmptyString, v)
           /\ get T_string_pair p = ok (V_string_pair EmptyString v)))
  /\
  (MQTTLenString.data (MQTTValue.value (MQTTProperty.value (c_struct p))) = None ->
     forall n,
       string_of_LenString
         (MQTTValue.data (MQTTProperty.value (c_struct p))) = ok n ->
       get_string_pair p = ok (n, EmptyString)
       /\ get T_string_pair p = ok (V_string_pair n EmptyString))
  /\
  (MQTTLenString.data (MQTTValue.data (MQTTProperty.value (c_struct p))) = None ->
   MQTTLenString.data (MQTTValue.value (MQTTProperty.value (c_struct p))) = None ->
     get_string_pair p = ok (EmptyString, EmptyString)
     /\ get T_string_pair p = ok (V_string_pair EmptyString EmptyString)).
Proof.
  unfold get, get_string, get_string_pair.
  set (d := MQTTValue.data _). set (v := MQTTValue.value _).
  assert (Null : forall s, MQTTLenString.data s = None ->
                   string_of_LenString s = ok EmptyString).
  { intros s Hs. unfold string_of_LenString. rewrite Hs. reflexivity. }
  split; [|split].
  - intros Hd. rewrite (Null d Hd). cbn [bind].
    split; [reflexivity|]. split; [reflexivity|].
    intros v' Hv. rewrite Hv. cbn [bind]. split; reflexivity.
  - intros Hv n Hn. rewrite (Null v Hv), Hn. cbn [bind]. split; reflexivity.
  - intros Hd Hv. rewrite (Null d Hd), (Null v Hv). cbn [bind].
    split; reflexivity.
Qed.

Lemma get_string_null_buffer_witness :
  get T_string null_pair_property = ok (V_string EmptyString)
  /\ get T_string_pair null_pair_property
       = ok (V_string_pair EmptyString EmptyString).
Proof.
  destruct (get_string_null_buffer null_pair_property) as (H1 & _ & H3).
  destruct (H1 eq_refl) as (_ & Hs & _).
  destruct (H3 eq_refl eq_refl) as (_ & Hp).
  split; [exact Hs|exact Hp].
Defined.

(** ** Checked access *)

(** C2. For a well-formed list and an index [i] of type [size_t], [at(i)]
    returns the element at position [i] when [i < size()]: the property it
    returns holds the C struct of that cell, with its identifier and
    value.  It throws [std::out_of_range] when [i >= size()]; it succeeds
    exactly in the first case and throws exactly in the second.
    [at(size())] throws, and on a non-empty list [at(size() - 1)]
    succeeds. *)
Theorem at_checked (p : properties) (i : Z) :
  wf_MQTTProperties (props_ p) ->
  0 <= i < 2 ^ 64 ->
  (i < size p ->
     exists c, elements p !! Z.to_nat i = Some c
               /\ at_ p i = ok (property_of_c c)
               /\ c_struct (property_of_c c) = c)
  /\ (forall q, at_ p i = ok q ->
        i < size p /\ elements p !! Z.to_nat i = Some (c_struct q))
  /\ (size p <= i -> at_ p i = throw (out_of_range "property index"))
  /\ (i < size p <-> exists q, at_ p i = ok q)
  /\ (size p <= i <-> exists e, at_ p i = throw e)
  /\ at_ p (size p) = throw (out_of_range "property index")
  /\ (empty p = false ->
        exists q, at_ p (size p - 1) = ok q
                  /\ elements p !! Z.to_nat (size p - 1) = Some (c_struct q)).
Proof.
  intros Hwf Hi.
  pose proof (wf_size p Hwf) as Hsz.
  pose proof (wf_length_cells _ Hwf) as Hlen.
  assert (In_range : forall j, 0 <= j < size p ->
            exists c, elements p !! Z.to_nat j = Some c
                      /\ at_ p j = ok (property_of_c c)
                      /\ c_struct (property_of_c c) = c).
  { intros j Hj. unfold at_, subscript. fold (size p).
    destruct (j <? size p) eqn:E; [|apply Z.ltb_ge in E; lia].
    rewrite read_cells by lia.
    destruct (read_in_range (cells (props_ p)) j) as (c & Hc & Hr); [lia|].
    exists c. rewrite Hr. split; [exact Hc|]. split; [reflexivity|].
    unfold property_of_c, c_struct. cbn [prop_]. apply copy_id. }
  assert (Past : forall j, size p <= j ->
            at_ p j = throw (out_of_range "property index")).
  { intros j Hj. unfold at_. fold (size p).
    destruct (j <? size p) eqn:E; [apply Z.ltb_lt in E; lia|reflexivity]. }
  split; [intros H; apply In_range; lia|].
  split.
  { intros q Hq. destruct (Z.lt_ge_cases i (size p)) as [H|H].
    - split; [exact H|].
      destruct (In_range i) as (c & Hc & Hat & Hcs); [lia|].
      rewrite Hat in Hq. injection Hq as <-. rewrite Hcs. exact Hc.
    - rewrite (Past i H) in Hq. discriminate. }
  split; [exact (Past i)|].
  split.
  { split.
    - intros H. destruct (In_range i) as (c & _ & Hc & _); [lia|]. eauto.
    - intros [q Hq]. destruct (Z.lt_ge_cases i (size p)) as [H|H]; [exact H|].
      rewrite (Past i H) in Hq. discriminate. }
  split.
  { split.
    - intros H. eauto.
    - intros [e He]. destruct (Z.lt_ge_cases i (size p)) as [H|H]; [|exact H].
      destruct (In_range i) as (c & _ & Hc & _); [lia|].
      rewrite Hc in He. discriminate. }
  split; [apply Past; lia|].
  intros Hne. unfold empty in Hne. apply Z.eqb_neq in Hne.
  destruct Hwf as [Hc _].
  destruct (In_range (size p - 1)) as (c & Hel & Hq & Hcs); [lia|].
  exists (property_of_c c). split; [exact Hq|]. rewrite Hcs. exact Hel.
Qed.

Lemma two_cells_wf : wf_MQTTProperties (props_ two_cells).
Proof. unfold wf_MQTTProperties; cbn. lia. Qed.

Lemma at_checked_witness :
  (exists q, at_ two_cells 1 = ok q
             /\ c_struct q
                = MQTTProperty.mk 36 (MQTTValue.mk 1 0 0 no_buffer no_buffer))
  /\ at_ two_cells 2 = throw (out_of_range "property index").
Proof.
  split.
  - destruct (at_checked two_cells 1 two_cells_wf ltac:(lia))
      as (H & Hcell & _).
    destruct H as (c & _ & H & _); [vm_compute; reflexivity|].
    exists (property_of_c c). split; [exact H|].
    destruct (Hcell _ H) as [_ Hc].
    change (elements two_cells !! Z.to_nat 1)
      with (Some (MQTTProperty.mk 36
                    (MQTTValue.mk 1 0 0 no_buffer no_buffer))) in Hc.
    congruence.
  - destruct (at_checked two_cells 2 two_cells_wf ltac:(lia))
      as (_ & _ & H & _).
    apply H. vm_compute. discriminate.
Defined.

(** ** clear *)

(** C8. [clear()] leaves the list empty: afterwards [empty()] is true,
    [size()] is 0 and there are no elements; clearing a cleared list, or a
    freshly constructed one, changes nothing. *)
Theorem clear_resets_and_is_idempotent (p : properties) :
  empty (clear p) = true
  /\ size (clear p) = 0
  /\ elements (clear p) = []
  /\ clear p = properties_default
  /\ clear (clear p) = clear p
  /\ clear properties_default = properties_default.
Proof. repeat split. Qed.

(** ** Forward iteration *)

Lemma range_for_complete (mem : list MQTTProperty.t) (n : nat) :
  (n <= length mem)%nat ->
  forall (fuel : nat) (it last : const_iterator),
    curr_ last = Z.of_nat n ->
    0 <= curr_ it <= Z.of_nat n ->
    (n - Z.to_nat (curr_ it) < fuel)%nat ->
    range_for fuel mem it last =
      Some (ok (property_of_c <$> drop (Z.to_nat (curr_ it)) (take n mem))).
Proof.
  intros Hn fuel. induction fuel as [|fuel IH]; intros it last Hlast Hit Hfuel.
  - lia.
  - cbn [range_for]. unfold neq. rewrite Hlast.
    destruct (Z.eqb_spec (curr_ it) (Z.of_nat n)) as [E|E]; cbn [negb].
    + rewrite drop_ge; [reflexivity|]. rewrite length_take_le; lia.
    + destruct (read_in_range mem (curr_ it)) as (c & Hc & Hr); [lia|].
      unfold deref. rewrite Hr.
      rewrite (IH (incr (Build_const_iterator (curr_ it) (Some (property_of_c c)))) last Hlast);
        cbn [incr curr_]; [|lia|lia].
      replace (Z.to_nat (curr_ it + 1)) with (S (Z.to_nat (curr_ it))) by lia.
      rewrite (drop_S (take n mem) c (Z.to_nat (curr_ it))).
      * reflexivity.
      * rewrite lookup_take_lt by lia. exact Hc.
Qed.

(** C6. On a well-formed list a complete forward iteration ends (any
    fuel above [size()] suffices) and yields the properties of the
    elements in list order, so two iterations yield the same sequence,
    also when the second starts from an iterator whose scratch property
    was left by an earlier dereference; on a list of size 0, [begin()]
    equals [end()], the loop condition is false at once and no element is
    produced. *)
Theorem iteration_deterministic (p : properties) (fuel1 fuel2 : nat) :
  wf_MQTTProperties (props_ p) ->
  size p < Z.of_nat fuel1 ->
  size p < Z.of_nat fuel2 ->
  iterate fuel1 p = Some (ok (property_of_c <$> elements p))
  /\ iterate fuel2 p = iterate fuel1 p
  /\ (forall s : option property,
        range_for fuel2 (MQTTProperties.array (props_ p))
          (Build_const_iterator (curr_ (begin p)) s) (end_ p)
        = iterate fuel1 p)
  /\ (size p = 0 ->
        begin p = end_ p
        /\ neq (begin p) (end_ p) = false
        /\ iterate 1 p = Some (ok [])).
Proof.
  intros Hwf H1 H2.
  pose proof (wf_size p Hwf) as Hsz.
  assert (Run : forall fuel s, size p < Z.of_nat fuel ->
            range_for fuel (MQTTProperties.array (props_ p))
              (Build_const_iterator (curr_ (begin p)) s) (end_ p)
            = Some (ok (property_of_c <$> elements p))).
  { intros fuel s Hf.
    destruct Hwf as [Hc Hl].
    rewrite (range_for_complete _ (Z.to_nat (MQTTProperties.count (props_ p))));
      cbn [begin end_ const_iterator_at curr_]; try lia.
    reflexivity. }
  assert (Run' : forall fuel, size p < Z.of_nat fuel ->
            iterate fuel p = Some (ok (property_of_c <$> elements p))).
  { intros fuel Hf. exact (Run fuel None Hf). }
  split; [apply Run'; exact H1|].
  split; [rewrite !Run' by assumption; reflexivity|].
  split; [intros s; rewrite Run, Run' by assumption; reflexivity|].
  intros H0. unfold begin, end_. rewrite H0. cbn.
  split; [reflexivity|]. split; [reflexivity|].
  unfold iterate, begin, end_. rewrite H0. reflexivity.
Qed.

Lemma iteration_deterministic_witness :
  iterate 3 two_cells = iterate 5 two_cells
  /\ iterate 5 two_cells =
       Some (ok (property_of_c <$> elements two_cells)).
Proof.
  destruct (iteration_deterministic two_cells 5 3 two_cells_wf)
    as (H1 & H2 & _ & _); [vm_compute; reflexivity|vm_compute; reflexivity|].
  split; [exact H2|exact H1].
Defined.

(** ** Move *)

Lemma properties_default_observably_empty : observably_empty properties_default.
Proof. repeat split. Qed.

(** C5. Moving a list leaves the source equal to a freshly constructed
    empty list and gives the target the whole former contents, both for
    the move constructor and for the move assignment; the source then has
    size 0, is empty, contains no code, counts 0 for every code and
    iterates over nothing. *)
Theorem move_leaves_source_empty (a b0 : properties) :
  (fst (properties_move a) = a
   /\ snd (properties_move a) = properties_default
   /\ observably_empty (snd (properties_move a)))
  /\ (fst (properties_move_assign b0 a) = a
      /\ snd (properties_move_assign b0 a) = properties_default
      /\ observably_empty (snd (properties_move_assign b0 a))).
Proof.
  assert (Ha : Build_properties' (props_ a) = a) by (destruct a; reflexivity).
  split; (split; [exact Ha|split; [reflexivity|]]);
    exact properties_default_observably_empty.
Qed.

(** ** Lookup by code *)

Lemma code_of_int_MQTTPropertyCodes (c : code) :
  code_of_int (MQTTPropertyCodes c) = Some c.
Proof. destruct c; reflexivity. Qed.

Lemma MQTTPropertyCodes_inj (c d : code) :
  MQTTPropertyCodes c = MQTTPropertyCodes d -> c = d.
Proof.
  intros H. apply (f_equal code_of_int) in H.
  rewrite !code_of_int_MQTTPropertyCodes in H. congruence.
Qed.

Lemma code_of_int_Some (n : Z) (c : code) :
  code_of_int n = Some c -> n = MQTTPropertyCodes c.
Proof.
  intros H. destruct n as [|q|q]; try discriminate H.
  do 7 (try destruct q as [q|q|]); cbn in H; try discriminate H;
    injection H as <-; reflexivity.
Qed.

Lemma type_Some (p : property) (c : code) :
  type p = Some c ->
  MQTTProperty.identifier (c_struct p) = MQTTPropertyCodes c.
Proof. apply code_of_int_Some. Qed.

Lemma property_of_c_struct (p : property) : property_of_c (c_struct p) = p.
Proof. destruct p as [c]. unfold property_of_c, c_struct. cbn. rewrite copy_id. reflexivity. Qed.

Lemma at_scan_negative (l : list MQTTProperty.t) (propid : Z) :
  forall k, k < 0 -> at_scan l propid k = None.
Proof.
  induction l as [|c l IH]; intros k Hk; cbn; [reflexivity|].
  destruct (MQTTProperty.identifier c =? propid).
  - destruct (Z.eqb_spec k 0); [lia|]. apply IH. lia.
  - apply IH. exact Hk.
Qed.

Lemma at_scan_filter (l : list MQTTProperty.t) (propid : Z) :
  forall k, 0 <= k ->
    at_scan l propid k = filter (has_code propid) l !! Z.to_nat k.
Proof.
  induction l as [|c l IH]; intros k Hk; cbn [at_scan]; [reflexivity|].
  destruct (Z.eqb_spec (MQTTProperty.identifier c) propid) as [E|E].
  - rewrite filter_cons_True by exact E.
    destruct (Z.eqb_spec k 0) as [->|Hk0]; [reflexivity|].
    rewrite IH by lia.
    replace (Z.to_nat k) with (S (Z.to_nat (k - 1))) by lia. reflexivity.
  - rewrite filter_cons_False by exact E. apply IH. exact Hk.
Qed.

Lemma count_scan_filter (l : list MQTTProperty.t) (propid : Z) :
  count_scan l propid = Z.of_nat (length (filter (has_code propid) l)).
Proof.
  induction l as [|c l IH]; cbn [count_scan]; [reflexivity|].
  destruct (Z.eqb_spec (MQTTProperty.identifier c) propid) as [E|E].
  - rewrite filter_cons_True by exact E. cbn [length]. lia.
  - rewrite filter_cons_False by exact E. exact IH.
Qed.

Lemma has_scan_filter (l : list MQTTProperty.t) (propid : Z) :
  has_scan l propid = if decide (filter (has_code propid) l = []) then 0 else 1.
Proof.
  induction l as [|c l IH]; cbn [has_scan]; [reflexivity|].
  destruct (Z.eqb_spec (MQTTProperty.identifier c) propid) as [E|E].
  - rewrite filter_cons_True by exact E. reflexivity.
  - rewrite filter_cons_False by exact E. exact IH.
Qed.

Lemma properties_get_occurrences (l : properties) (c : code) (k : Z) :
  0 <= k ->
  properties_get l c k =
    match occurrences l c !! Z.to_nat k with
    | Some e => ok (property_of_c e)
    | None => throw PropertyNotFound
    end.
Proof.
  intros Hk. unfold properties_get, MQTTProperties_getPropertyAt, occurrences.
  rewrite at_scan_filter by exact Hk. reflexivity.
Qed.

(** C1. For a list built by adding properties with the codes X, Y, X, Z
    in that order (Y and Z different from X), [count(X)] is 2, [get(X, 0)]
    is the first X property added, [get(X, 1)] the second, and [get(X, 2)]
    fails with PropertyNotFound.  On every list, [get(code, k)] is the
    property of the [k]-th element, counted from 0 in list order, among
    those with that code, and fails with PropertyNotFound when there is no
    such element; [count(code)] is the number of those elements. *)
Theorem lookup_by_code (X Y Z' : code) (pX1 pY pX2 pZ : property) :
  Y <> X -> Z' <> X ->
  type pX1 = Some X -> type pY = Some Y ->
  type pX2 = Some X -> type pZ = Some Z' ->
  let l := add (add (add (add properties_default pX1) pY) pX2) pZ in
  (count l X = 2
   /\ properties_get l X 0 = ok pX1
   /\ properties_get l X 1 = ok pX2
   /\ properties_get l X 2 = throw PropertyNotFound)
  /\ (forall (l' : properties) (c : code) (k : Z), 0 <= k ->
        properties_get l' c k =
          match occurrences l' c !! Z.to_nat k with
          | Some e => ok (property_of_c e)
          | None => throw PropertyNotFound
          end)
  /\ (forall (l' : properties) (c : code),
        wf_MQTTProperties (props_ l') ->
        count l' c = Z.of_nat (length (occurrences l' c))).
Proof.
  intros HY HZ H1 HYt H2 HZt l.
  apply type_Some in H1, HYt, H2, HZt.
  assert (NY : MQTTProperty.identifier (c_struct pY) <> MQTTPropertyCodes X).
  { rewrite HYt. intros E. apply MQTTPropertyCodes_inj in E. contradiction. }
  assert (NZ : MQTTProperty.identifier (c_struct pZ) <> MQTTPropertyCodes X).
  { rewrite HZt. intros E. apply MQTTPropertyCodes_inj in E. contradiction. }
  assert (El : elements l =
            [c_struct pX1; c_struct pY; c_struct pX2; c_struct pZ]).
  { subst l. unfold elements, add, MQTTProperties_add, cells. cbn.
    rewrite !copy_id. reflexivity. }
  assert (Occ : occurrences l X = [c_struct pX1; c_struct pX2]).
  { unfold occurrences. rewrite El.
    rewrite filter_cons_True by exact H1.
    rewrite filter_cons_False by exact NY.
    rewrite filter_cons_True by exact H2.
    rewrite filter_cons_False by exact NZ.
    reflexivity. }
  split; [|split].
  - split.
    { unfold count, MQTTProperties_propertyCount. fold (elements l).
      rewrite count_scan_filter. fold (occurrences l X). rewrite Occ.
      reflexivity. }
    rewrite !properties_get_occurrences by lia. rewrite Occ.
    change (Z.to_nat 0) with 0%nat. change (Z.to_nat 1) with 1%nat.
    change (Z.to_nat 2) with 2%nat. cbn -[property_of_c c_struct].
    rewrite !property_of_c_struct. repeat split.
  - intros l' c k Hk. apply properties_get_occurrences. exact Hk.
  - intros l' c Hwf. unfold count, MQTTProperties_propertyCount.
    fold (elements l'). rewrite count_scan_filter. fold (occurrences l' c).
    apply size_t_small.
    pose proof (length_filter (has_code (MQTTPropertyCodes c)) (elements l')) as L.
    pose proof (wf_length_cells _ Hwf) as Hlen. fold (elements l') in Hlen.
    destruct Hwf as [Hc _]. unfold occurrences. lia.
Qed.

Lemma lookup_by_code_witness :
  count sample_list USER_PROPERTY = 2
  /\ properties_get sample_list USER_PROPERTY 0 = ok sample_user1
  /\ properties_get sample_list USER_PROPERTY 1 = ok sample_user2
  /\ properties_get sample_list USER_PROPERTY 2 = throw PropertyNotFound.
Proof.
  exact (proj1 (lookup_by_code USER_PROPERTY CONTENT_TYPE MAXIMUM_QOS
                  sample_user1 sample_content sample_user2 sample_qos
                  ltac:(discriminate) ltac:(discriminate)
                  eq_refl eq_refl eq_refl eq_refl)).
Defined.

(** ** Typed lookup in a list *)

Lemma int_small (idx : Z) : 0 <= idx < 2 ^ 31 -> int idx = idx.
Proof. intros H. unfold int. apply to_signed_small; [lia|exact H]. Qed.

Lemma get_unsupported (T : cxx_type) (p : property) :
  supported T = false -> get T p = throw bad_cast.
Proof. destruct T; cbn; intros H; try discriminate H. reflexivity. Qed.

Lemma get_integer (T : cxx_type) (p : property) :
  is_integer_type T = true -> exists v, get T p = ok v.
Proof.
  destruct T; cbn; intros H; try discriminate H; eauto.
Qed.

(** C3, counterexample. The two failures of [get<T>(list, code,
    occurrence)] are not distinguishable: a request for an absent property
    with a supported type and a request for a present property with an
    unsupported type end with the same exception, [bad_cast]. *)
Lemma absent_and_unsupported_fail_alike :
  occurrences properties_default CONTENT_TYPE !! 0%nat = None
  /\ get_from T_string properties_default CONTENT_TYPE 0 = throw bad_cast
  /\ is_Some (occurrences two_cells CONTENT_TYPE !! 0%nat)
  /\ get_from (T_other "bool") two_cells CONTENT_TYPE 0 = throw bad_cast
  /\ ~ failures_distinguishable.
Proof.
  assert (Present : is_Some (occurrences two_cells CONTENT_TYPE !! 0%nat)).
  { vm_compute. eexists. reflexivity. }
  repeat split; [exact Present|].
  intros H.
  apply (H T_string (T_other "bool") properties_default two_cells
           CONTENT_TYPE 0); [reflexivity|reflexivity|reflexivity|exact Present|].
  reflexivity.
Qed.

(** C3, amended. For an occurrence index below 2^31, the free function
    [get<T>(list, code, occurrence)] is the lookup of the occurrence
    followed by [get<T>] on the property found; it throws [bad_cast] when
    the list has no such occurrence, and it throws the same [bad_cast]
    when [T] is a type without extraction; when the occurrence exists
    the outcome is that of [get<T>] on the property found, a value for
    every integer type. *)
Theorem get_from_list_composes (T : cxx_type) (ps : properties) (c : code)
    (idx : Z) :
  0 <= idx < 2 ^ 31 ->
  get_from T ps c idx =
    match properties_get ps c idx with
    | ok p => get T p
    | _ => throw bad_cast
    end
  /\ get_from T ps c idx =
       match occurrences ps c !! Z.to_nat idx with
       | Some e => get T (property_of_c e)
       | None => throw bad_cast
       end
  /\ (occurrences ps c !! Z.to_nat idx = None ->
        get_from T ps c idx = throw bad_cast)
  /\ (supported T = false -> get_from T ps c idx = throw bad_cast)
  /\ (forall e, occurrences ps c !! Z.to_nat idx = Some e ->
        get_from T ps c idx = get T (property_of_c e))
  /\ (is_integer_type T = true ->
        is_Some (occurrences ps c !! Z.to_nat idx) ->
        exists v, get_from T ps c idx = ok v).
Proof.
  intros Hidx.
  assert (E : get_from T ps c idx =
                match occurrences ps c !! Z.to_nat idx with
                | Some e => get T (property_of_c e)
                | None => throw bad_cast
                end).
  { unfold get_from, MQTTProperties_getPropertyAt, occurrences, elements.
    rewrite int_small by exact Hidx. rewrite at_scan_filter by lia.
    reflexivity. }
  split.
  { rewrite E, properties_get_occurrences by lia.
    destruct (occurrences ps c !! Z.to_nat idx); reflexivity. }
  split; [exact E|].
  split; [intros H; rewrite E, H; reflexivity|].
  split; [|split].
  - intros H. rewrite E.
    destruct (occurrences ps c !! Z.to_nat idx);
      [apply get_unsupported; exact H|reflexivity].
  - intros e He. rewrite E, He. reflexivity.
  - intros H [e He]. rewrite E, He. apply get_integer. exact H.
Qed.

Lemma get_from_list_composes_witness :
  get_from T_string two_cells CONTENT_TYPE 0 = ok (V_string "text")
  /\ get_from T_string two_cells CONTENT_TYPE 1 = throw bad_cast
  /\ get_from (T_other "bool") two_cells CONTENT_TYPE 0 = throw bad_cast.
Proof.
  split; [|split].
  - rewrite (proj1 (get_from_list_composes T_string two_cells CONTENT_TYPE 0
                      ltac:(lia))).
    reflexivity.
  - destruct (get_from_list_composes T_string two_cells CONTENT_TYPE 1
                ltac:(lia)) as (_ & _ & Habsent & _).
    apply Habsent. reflexivity.
  - destruct (get_from_list_composes (T_other "bool") two_cells CONTENT_TYPE 0
                ltac:(lia)) as (_ & _ & _ & Htype & _).
    apply Htype. reflexivity.
Defined.

(** ** Construction *)

Lemma substring_all (s : string) : String.substring 0 (String.length s) s = s.
Proof. induction s as [|a s IH]; cbn; [reflexivity|]. rewrite IH. reflexivity. Qed.

Lemma string_of_LenString_buffer_of (s : string) :
  string_of_LenString (buffer_of s) = ok s.
Proof.
  unfold string_of_LenString, buffer_of, string_of_buffer.
  cbn [MQTTLenString.data MQTTLenString.len].
  destruct (Z.ltb_spec (Z.of_nat (String.length s)) 0) as [H|_]; [lia|].
  rewrite Z.ltb_irrefl.
  rewrite Nat2Z.id, substring_all. reflexivity.
Qed.

(** C4. Whatever the kind table and the name table, as long as the kind
    of content-type is Utf8String: constructing a content-type property
    from an integer fails with InvalidPropertyKind; constructing it from a
    string succeeds, the property has the code content-type, holds the
    string, and [type_name()] is the entry of content-type in the name
    table.  In general each constructor fails with InvalidPropertyKind
    when the kind of the code is not one of those it accepts, and
    succeeds with a property of that code when it is. *)
Theorem construction_validates_kind (kind_of : code -> ValueKind)
    (TYPE_NAME : gmap code string) :
  kind_of CONTENT_TYPE = Utf8String ->
  (forall val,
     property_of_int kind_of CONTENT_TYPE val = throw InvalidPropertyKind)
  /\ (forall s, exists p,
        property_of_string kind_of CONTENT_TYPE s = ok p
        /\ type p = Some CONTENT_TYPE
        /\ get_string p = ok s
        /\ type_name TYPE_NAME p = TYPE_NAME !! CONTENT_TYPE)
  /\ (forall c val,
        if is_integer_kind (kind_of c)
        then exists p, property_of_int kind_of c val = ok p /\ type p = Some c
        else property_of_int kind_of c val = throw InvalidPropertyKind)
  /\ (forall c s,
        if is_buffer_kind (kind_of c)
        then exists p, property_of_string kind_of c s = ok p
                       /\ type p = Some c /\ get_string p = ok s
        else property_of_string kind_of c s = throw InvalidPropertyKind)
  /\ (forall c name val,
        if is_pair_kind (kind_of c)
        then exists p, property_of_pair kind_of c name val = ok p
                       /\ type p = Some c
                       /\ get_string_pair p = ok (name, val)
        else property_of_pair kind_of c name val = throw InvalidPropertyKind).
Proof.
  intros Hkind.
  split; [intros val; unfold property_of_int; rewrite Hkind; reflexivity|].
  split.
  { intros s. unfold property_of_string. rewrite Hkind. cbn [is_buffer_kind].
    eexists. split; [reflexivity|]. split; [reflexivity|].
    split; [apply string_of_LenString_buffer_of|reflexivity]. }
  split.
  { intros c val. unfold property_of_int.
    destruct (kind_of c); cbn [is_integer_kind]; try reflexivity;
      (eexists; split; [reflexivity|apply code_of_int_MQTTPropertyCodes]). }
  split.
  { intros c s. unfold property_of_string.
    destruct (is_buffer_kind (kind_of c)); [|reflexivity].
    eexists. split; [reflexivity|].
    split; [apply code_of_int_MQTTPropertyCodes|].
    apply string_of_LenString_buffer_of. }
  intros c name val. unfold property_of_pair.
  destruct (is_pair_kind (kind_of c)); [|reflexivity].
  eexists. split; [reflexivity|].
  split; [apply code_of_int_MQTTPropertyCodes|].
  unfold get_string_pair. cbn [c_struct prop_ MQTTProperty.value
    MQTTValue.data MQTTValue.value].
  rewrite !string_of_LenString_buffer_of. reflexivity.
Qed.

Lemma construction_validates_kind_witness :
  property_of_int sample_kind_of CONTENT_TYPE 7 = throw InvalidPropertyKind
  /\ exists p,
       property_of_string sample_kind_of CONTENT_TYPE "text/plain" = ok p
       /\ type_name sample_TYPE_NAME p = Some "ContentType".
Proof.
  destruct (construction_validates_kind sample_kind_of sample_TYPE_NAME eq_refl)
    as (Hint & Hstr & _).
  split; [apply Hint|].
  destruct (Hstr "text/plain") as (p & Hp & _ & _ & Hname).
  exists p. split; [exact Hp|]. rewrite Hname. reflexivity.
Defined.

(** ** The properties of the connect options *)

Lemma fmap_copy (l : list MQTTProperty.t) : copy <$> l = l.
Proof.
  induction l as [|c l IH]; cbn; [reflexivity|].
  rewrite copy_id. f_equal. exact IH.
Qed.

Lemma cells_MQTTProperties_copy (c : MQTTProperties.t) :
  cells (MQTTProperties_copy c) = cells c.
Proof.
  unfold MQTTProperties_copy, cells. cbn. rewrite fmap_copy.
  rewrite take_take. f_equal. lia.
Qed.

Lemma at_copy_assign (this p : properties) (i : Z) :
  wf_MQTTProperties (props_ p) ->
  at_ (properties_copy_assign this p) i = at_ p i.
Proof.
  intros Hwf. unfold at_, subscript, properties_copy_assign. cbn.
  destruct (i <? size_t (MQTTProperties.count (props_ p))) eqn:E;
    [|reflexivity].
  apply Z.ltb_lt in E. fold (size p) in E. rewrite (wf_size p Hwf) in E.
  rewrite fmap_copy.
  destruct (Z.lt_ge_cases i 0) as [Hneg|Hpos].
  - unfold read. destruct (Z.ltb_spec i 0); [reflexivity|lia].
  - rewrite (read_cells (props_ p) i) by lia. reflexivity.
Qed.

(** C9. After [c.set_properties(p)] with a well-formed list [p], the
    list [c.get_properties()] has the size, the elements (codes and
    values, in order) and the answers of [at], [count], [contains] and
    [get] of [p]; the other C++ data members of [c] and the other getters
    (user name, password, will and SSL options, keep-alive and timeouts,
    servers, HTTP headers and proxies) are as before the call. *)
Theorem set_properties_frame
    {will_options ssl_options token_ptr const_string_collection_ptr
     name_value_collection : Type}
    (c : @connect_options.t will_options ssl_options token_ptr
           const_string_collection_ptr name_value_collection)
    (p : properties) :
  wf_MQTTProperties (props_ p) ->
  let c' := connect_options.set_properties c p in
  (size (connect_options.get_properties c') = size p
   /\ elements (connect_options.get_properties c') = elements p
   /\ (forall i, at_ (connect_options.get_properties c') i = at_ p i)
   /\ (forall k, count (connect_options.get_properties c') k = count p k)
   /\ (forall k, contains (connect_options.get_properties c') k = contains p k)
   /\ (forall k i, properties_get (connect_options.get_properties c') k i
                   = properties_get p k i))
  /\ (connect_options.will_ c' = connect_options.will_ c
      /\ connect_options.ssl_ c' = connect_options.ssl_ c
      /\ connect_options.userName_ c' = connect_options.userName_ c
      /\ connect_options.password_ c' = connect_options.password_ c
      /\ connect_options.tok_ c' = connect_options.tok_ c
      /\ connect_options.serverURIs_ c' = connect_options.serverURIs_ c
      /\ connect_options.httpHeaders_ c' = connect_options.httpHeaders_ c
      /\ connect_options.httpProxy_ c' = connect_options.httpProxy_ c
      /\ connect_options.httpsProxy_ c' = connect_options.httpsProxy_ c)
  /\ (connect_options.get_user_name c' = connect_options.get_user_name c
      /\ connect_options.get_password c' = connect_options.get_password c
      /\ connect_options.get_password_str c' = connect_options.get_password_str c
      /\ connect_options.get_will_options c' = connect_options.get_will_options c
      /\ connect_options.get_ssl_options c' = connect_options.get_ssl_options c
      /\ connect_options.get_keep_alive_interval c'
           = connect_options.get_keep_alive_interval c
      /\ connect_options.get_connect_timeout c'
           = connect_options.get_connect_timeout c
      /\ connect_options.get_min_retry_interval c'
           = connect_options.get_min_retry_interval c
      /\ connect_options.get_max_retry_interval c'
           = connect_options.get_max_retry_interval c
      /\ connect_options.get_max_inflight c' = connect_options.get_max_inflight c
      /\ connect_options.get_mqtt_version c' = connect_options.get_mqtt_version c
      /\ connect_options.is_clean_session c' = connect_options.is_clean_session c
      /\ connect_options.is_clean_start c' = connect_options.is_clean_start c
      /\ connect_options.get_automatic_reconnect c'
           = connect_options.get_automatic_reconnect c
      /\ connect_options.get_socket_fwmark c' = connect_options.get_socket_fwmark c
      /\ connect_options.get_token c' = connect_options.get_token c
      /\ connect_options.get_servers c' = connect_options.get_servers c
      /\ connect_options.get_http_headers c' = connect_options.get_http_headers c
      /\ connect_options.get_http_proxy c' = connect_options.get_http_proxy c
      /\ connect_options.get_https_proxy c' = connect_options.get_https_proxy c).
Proof.
  intros Hwf c'.
  assert (El : elements (connect_options.get_properties c') = elements p).
  { apply cells_MQTTProperties_copy. }
  split; [|split; repeat split].
  split; [reflexivity|]. split; [exact El|].
  split; [intros i; apply at_copy_assign; exact Hwf|].
  split; [|split].
  - intros k. unfold count, MQTTProperties_propertyCount.
    fold (elements (connect_options.get_properties c')). rewrite El. reflexivity.
  - intros k. unfold contains, MQTTProperties_hasProperty.
    fold (elements (connect_options.get_properties c')). rewrite El. reflexivity.
  - intros k i. unfold properties_get, MQTTProperties_getPropertyAt.
    fold (elements (connect_options.get_properties c')). rewrite El. reflexivity.
Qed.

Lemma set_properties_frame_witness :
  elements (connect_options.get_properties
              (connect_options.set_properties sample_options two_cells))
    = elements two_cells
  /\ connect_options.get_user_name
       (connect_options.set_properties sample_options two_cells) = "user"
  /\ connect_options.get_keep_alive_interval
       (connect_options.set_properties sample_options two_cells) = 60.
Proof.
  destruct (set_properties_frame sample_options two_cells two_cells_wf)
    as ((_ & El & _) & _ & (Hu & _ & _ & _ & _ & Hk & _)).
  split; [exact El|]. split; [rewrite Hu|rewrite Hk]; reflexivity.
Defined.

(** * Further properties of the headers *)

(** ** Typed extraction *)

Lemma string_of_buffer_throw (buf : string) (n : Z) (e : exn) :
  string_of_buffer buf n = throw e <-> e = length_error /\ n < 0.
Proof.
  unfold string_of_buffer.
  destruct (Z.ltb_spec n 0) as [L|L].
  - split; [intros H; injection H as <-; split; [reflexivity|exact L]|].
    intros [-> _]. reflexivity.
  - destruct (Z.of_nat (String.length buf) <? n);
      (split; [discriminate|intros [_ H]; lia]).
Qed.

Lemma string_of_LenString_throw (s : MQTTLenString.t) (e : exn) :
  string_of_LenString s = throw e <-> e = length_error /\ negative_length s.
Proof.
  unfold string_of_LenString, negative_length.
  destruct (MQTTLenString.data s) as [buf|].
  - rewrite string_of_buffer_throw. split.
    + intros [-> L]. split; [reflexivity|]. split; [discriminate|exact L].
    + intros (-> & _ & L). split; [reflexivity|exact L].
  - split; [discriminate|]. intros (_ & N & _). destruct (N eq_refl).
Qed.

Lemma get_string_throw (p : property) (e : exn) :
  get T_string p = throw e <->
  e = length_error
  /\ negative_length (MQTTValue.data (MQTTProperty.value (c_struct p))).
Proof.
  cbn [get]. unfold get_string.
  rewrite <- string_of_LenString_throw.
  destruct (string_of_LenString _); cbn [bind]; split; intros H;
    congruence.
Qed.

Lemma get_string_pair_throw (p : property) (e : exn) :
  get T_string_pair p = throw e ->
  e = length_error
  /\ (negative_length (MQTTValue.data (MQTTProperty.value (c_struct p)))
      \/ negative_length (MQTTValue.value (MQTTProperty.value (c_struct p)))).
Proof.
  cbn [get]. unfold get_string_pair.
  pose proof (string_of_LenString_throw
    (MQTTValue.data (MQTTProperty.value (c_struct p))) e) as N1.
  pose proof (string_of_LenString_throw
    (MQTTValue.value (MQTTProperty.value (c_struct p))) e) as N2.
  destruct (string_of_LenString (MQTTValue.data _)) as [n|e1|]; cbn [bind].
  - destruct (string_of_LenString (MQTTValue.value _)) as [v|e2|];
      cbn [bind]; intros H; try discriminate H.
    injection H as H. subst e2.
    destruct (proj1 N2 eq_refl) as [-> B]. split; [reflexivity|right; exact B].
  - intros H. injection H as H. subst e1.
    destruct (proj1 N1 eq_refl) as [-> B].
    split; [reflexivity|left; exact B].
  - discriminate.
Qed.

Lemma get_throw (T : cxx_type) (p : property) (e : exn) :
  get T p = throw e ->
  (e = bad_cast /\ supported T = false)
  \/ (e = length_error
      /\ (T = T_string \/ T = T_string_pair)
      /\ (negative_length (MQTTValue.data (MQTTProperty.value (c_struct p)))
          \/ negative_length
               (MQTTValue.value (MQTTProperty.value (c_struct p))))).
Proof.
  destruct T; try (cbn [get]; discriminate).
  - intros H. apply get_string_throw in H. destruct H as [-> B].
    right. split; [reflexivity|]. split; [left; reflexivity|left; exact B].
  - intros H. apply get_string_pair_throw in H. destruct H as [-> B].
    right. split; [reflexivity|]. split; [right; reflexivity|exact B].
  - cbn [get]. intros H. injection H as <-. left. split; reflexivity.
Qed.

Lemma get_throws_bad_cast (T : cxx_type) (p : property) :
  get T p = throw bad_cast <-> supported T = false.
Proof.
  split; [|apply get_unsupported].
  intros H. destruct (get_throw T p _ H) as [[_ S]|[E _]];
    [exact S|discriminate E].
Qed.

(** X1. [get<T>(const property&)] throws [bad_cast] exactly when [T] has
    no specialization, whatever the property: there is no check of the
    kind of the property against [T].  The only other exception is the
    [std::length_error] of the string constructor, which only
    [get<string>] and [get<string_pair>] throw and only for a buffer with
    a pointer that is not null and a negative length; [get<string>]
    throws it exactly then.  For the five integer types a value is
    returned for every property. *)
Theorem get_throws_iff_unsupported (T : cxx_type) (p : property) :
  (get T p = throw bad_cast <-> supported T = false)
  /\ (forall q, get T p = throw bad_cast <-> get T q = throw bad_cast)
  /\ (forall e, get T p = throw e ->
        (e = bad_cast /\ supported T = false)
        \/ (e = length_error
            /\ (T = T_string \/ T = T_string_pair)
            /\ (negative_length
                  (MQTTValue.data (MQTTProperty.value (c_struct p)))
                \/ negative_length
                     (MQTTValue.value (MQTTProperty.value (c_struct p))))))
  /\ (forall e, get T_string p = throw e <->
        e = length_error
        /\ negative_length
             (MQTTValue.data (MQTTProperty.value (c_struct p))))
  /\ (if is_integer_type T then exists v, get T p = ok v else True).
Proof.
  split; [apply get_throws_bad_cast|].
  split; [intros q; rewrite !get_throws_bad_cast; reflexivity|].
  split; [intros e; apply get_throw|].
  split; [intros e; apply get_string_throw|].
  destruct (is_integer_type T) eqn:I; [|exact Logic.I].
  apply get_integer. exact I.
Qed.

Lemma get_throws_iff_unsupported_witness :
  get T_string sample_negative_length = throw length_error
  /\ get (T_other "bool") sample_negative_length = throw bad_cast.
Proof.
  destruct (get_throws_iff_unsupported T_string sample_negative_length)
    as (_ & _ & _ & Hlen & _).
  destruct (get_throws_iff_unsupported (T_other "bool") sample_negative_length)
    as (Hbad & _).
  split.
  - apply Hlen. split; [reflexivity|].
    split; [discriminate|reflexivity].
  - apply Hbad. reflexivity.
Defined.

(** X2. The unsigned extractors return a value in the range of their
    type.  The deprecated signed extractors return the unsigned value
    when it is below 2^15 (2^31) and that value less 2^16 (2^32), a
    negative number, when it is not. *)
Theorem signed_get_by_cases (p : property) :
  0 <= get_uint8 p < 2 ^ 8
  /\ 0 <= get_uint16 p < 2 ^ 16
  /\ 0 <= get_uint32 p < 2 ^ 32
  /\ get_int16 p =
       (if get_uint16 p <? 2 ^ 15 then get_uint16 p
        else get_uint16 p - 2 ^ 16)
  /\ get_int32 p =
       (if get_uint32 p <? 2 ^ 31 then get_uint32 p
        else get_uint32 p - 2 ^ 32).
Proof.
  unfold get_uint8, get_uint16, get_uint32, get_int16, get_int32.
  unfold uint8_t, uint16_t, uint32_t, int16_t, int32_t.
  set (b := MQTTValue.byte _). set (x2 := MQTTValue.integer2 _).
  set (x4 := MQTTValue.integer4 _).
  pose proof (Z.mod_pos_bound b (2 ^ 8) ltac:(lia)) as Bb.
  pose proof (Z.mod_pos_bound x2 (2 ^ 16) ltac:(lia)) as B2.
  pose proof (Z.mod_pos_bound x4 (2 ^ 32) ltac:(lia)) as B4.
  split; [exact Bb|]. split; [exact B2|]. split; [exact B4|].
  split.
  - rewrite <- (to_signed_mod 16 x2). unfold to_signed.
    change (16 - 1) with 15.
    destruct (Z.ltb_spec (x2 mod 2 ^ 16) (2 ^ 15)) as [L|L].
    + rewrite Z.mod_small; lia.
    + replace (x2 mod 2 ^ 16 + 2 ^ 15)
        with ((x2 mod 2 ^ 16 - 2 ^ 15) + 1 * 2 ^ 16) by lia.
      rewrite Z_mod_plus_full. rewrite Z.mod_small; lia.
  - rewrite <- (to_signed_mod 32 x4). unfold to_signed.
    change (32 - 1) with 31.
    destruct (Z.ltb_spec (x4 mod 2 ^ 32) (2 ^ 31)) as [L|L].
    + rewrite Z.mod_small; lia.
    + replace (x4 mod 2 ^ 32 + 2 ^ 31)
        with ((x4 mod 2 ^ 32 - 2 ^ 31) + 1 * 2 ^ 32) by lia.
      rewrite Z_mod_plus_full. rewrite Z.mod_small; lia.
Qed.

Lemma substring_prefix (n : nat) :
  forall s : string, (n <= String.length s)%nat ->
    String.length (String.substring 0 n s) = n
    /\ exists rest, s = String.append (String.substring 0 n s) rest.
Proof.
  induction n as [|n IH]; intros s Hn.
  - destruct s; cbn; (split; [reflexivity|eexists; reflexivity]).
  - destruct s as [|a s]; cbn in Hn; [lia|].
    destruct (IH s ltac:(lia)) as (L & rest & E).
    cbn [String.substring String.length String.append].
    split; [rewrite L; reflexivity|].
    exists rest.
    change (String a s
            = String a (String.append (String.substring 0 n s) rest)).
    f_equal. exact E.
Qed.

(** X3. With a data pointer that is not null and a length [len] between
    0 and the size of the buffer, [get<string>] returns exactly the first
    [len] characters of the buffer: the length field, not the content of
    the buffer, decides where the string ends.  [get<string_pair>]
    returns the two strings read in this way from the two buffers. *)
Theorem get_string_takes_len_characters (p : property) (buf : string) :
  MQTTLenString.data (MQTTValue.data (MQTTProperty.value (c_struct p)))
    = Some buf ->
  0 <= MQTTLenString.len (MQTTValue.data (MQTTProperty.value (c_struct p)))
    <= Z.of_nat (String.length buf) ->
  exists s,
    get_string p = ok s
    /\ get T_string p = ok (V_string s)
    /\ Z.of_nat (String.length s)
         = MQTTLenString.len (MQTTValue.data (MQTTProperty.value (c_struct p)))
    /\ (exists rest, buf = String.append s rest)
    /\ (forall v,
          string_of_LenString
            (MQTTValue.value (MQTTProperty.value (c_struct p))) = ok v ->
          get T_string_pair p = ok (V_string_pair s v)).
Proof.
  intros Hd Hlen.
  set (n := MQTTLenString.len _) in *.
  destruct (substring_prefix (Z.to_nat n) buf ltac:(lia)) as (L & rest & E).
  assert (S : string_of_LenString
                (MQTTValue.data (MQTTProperty.value (c_struct p)))
              = ok (String.substring 0 (Z.to_nat n) buf)).
  { unfold string_of_LenString. rewrite Hd. unfold string_of_buffer.
    fold n.
    destruct (Z.ltb_spec n 0); [lia|].
    destruct (Z.ltb_spec (Z.of_nat (String.length buf)) n); [lia|].
    reflexivity. }
  exists (String.substring 0 (Z.to_nat n) buf).
  unfold get, get_string, get_string_pair. rewrite S. cbn [bind].
  split; [reflexivity|]. split; [reflexivity|].
  split; [rewrite L; lia|]. split; [exists rest; exact E|].
  intros v Hv. rewrite Hv. reflexivity.
Qed.

Lemma get_string_takes_len_characters_witness :
  get T_string sample_long_buffer = ok (V_string "text").
Proof.
  destruct (get_string_takes_len_characters sample_long_buffer "text/plain"
              eq_refl ltac:(cbn; lia)) as (s & Hs & Hg & _ & _ & _).
  rewrite Hg. f_equal. f_equal.
  assert (E : ok s = ok "text"%string :> outcome string)
    by (rewrite <- Hs; reflexivity).
  injection E as ->. reflexivity.
Defined.

(** ** Codes *)

(** X4. [type()] is the code [c] exactly when the identifier of the C
    struct is the integer of [c], and it names no code exactly when the
    identifier is the integer of none.  The integers of the codes lie
    between 1 and 42 and no two codes share one. *)
Theorem type_identifies_code (p : property) (c : code) :
  (type p = Some c <->
     MQTTProperty.identifier (c_struct p) = MQTTPropertyCodes c)
  /\ (type p = None <->
        forall d, MQTTProperty.identifier (c_struct p) <> MQTTPropertyCodes d)
  /\ 1 <= MQTTPropertyCodes c <= 42
  /\ (forall d, MQTTPropertyCodes c = MQTTPropertyCodes d <-> c = d).
Proof.
  split; [|split; [|split]].
  - split; [apply type_Some|].
    intros H. unfold type. change (prop_ p) with (c_struct p). rewrite H.
    apply code_of_int_MQTTPropertyCodes.
  - split.
    + intros H d E. unfold type in H. change (prop_ p) with (c_struct p) in H.
      rewrite E, code_of_int_MQTTPropertyCodes in H. discriminate.
    + intros H. destruct (type p) as [d|] eqn:E; [|reflexivity].
      apply type_Some in E. destruct (H d E).
  - destruct c; cbn; lia.
  - intros d. split; [apply MQTTPropertyCodes_inj|intros ->; reflexivity].
Qed.

(** ** Checked and unchecked access *)

Lemma read_no_throw (mem : list MQTTProperty.t) (i : Z) (e : exn) :
  read mem i <> throw e.
Proof.
  unfold read. destruct (i <? 0); [discriminate|].
  destruct (mem !! Z.to_nat i); discriminate.
Qed.

Lemma subscript_no_throw (p : properties) (i : Z) (e : exn) :
  subscript p i <> throw e.
Proof.
  unfold subscript.
  pose proof (read_no_throw (MQTTProperties.array (props_ p)) i e) as N.
  destruct (read _ i); congruence.
Qed.

(** X5. [at(i)] is [operator[](i)] exactly when [i < size()]: below the
    size the check adds nothing, and from the size on [at] throws where
    [operator[]] reads the array all the same and never throws.  The one
    exception [at] throws is [std::out_of_range] with the text
    "property index", and it throws it only when [i >= size()]. *)
Theorem at_is_subscript_below_size (p : properties) (i : Z) :
  (at_ p i = subscript p i <-> i < size p)
  /\ (forall e, subscript p i <> throw e)
  /\ (forall e, at_ p i = throw e ->
        e = out_of_range "property index" /\ size p <= i).
Proof.
  pose proof (subscript_no_throw p i) as N.
  unfold at_. fold (size p).
  destruct (Z.ltb_spec i (size p)) as [L|L].
  - split; [tauto|]. split; [exact N|].
    intros e He. destruct (N e He).
  - split.
    { split; [intros H; symmetry in H; destruct (N _ H)|lia]. }
    split; [exact N|].
    intros e He. injection He as <-. split; [reflexivity|exact L].
Qed.

Lemma at_is_subscript_below_size_witness :
  at_ two_cells 2 = throw (out_of_range "property index")
  /\ at_ two_cells 1 = subscript two_cells 1.
Proof.
  destruct (at_is_subscript_below_size two_cells 2) as (_ & _ & H2).
  destruct (at_is_subscript_below_size two_cells 1) as (H1 & _).
  split.
  - destruct (H2 (out_of_range "property index") eq_refl) as [_ _].
    reflexivity.
  - apply H1. reflexivity.
Defined.

(** ** Empty lists *)

(** X6. When the count of the C struct is an [int], [empty()] is true
    exactly when [size()] is 0, and exactly when [begin()] and [end()]
    compare equal. *)
Theorem empty_iff_size_zero (p : properties) :
  - 2 ^ 31 <= MQTTProperties.count (props_ p) < 2 ^ 31 ->
  (empty p = true <-> size p = 0)
  /\ (empty p = true <-> neq (begin p) (end_ p) = false).
Proof.
  intros Hc.
  assert (E : empty p = true <-> size p = 0).
  { unfold empty, size, size_t. rewrite Z.eqb_eq.
    set (n := MQTTProperties.count (props_ p)) in *.
    split; [intros ->; reflexivity|].
    intros H. destruct (Z.lt_ge_cases n 0) as [Neg|Pos].
    - replace n with ((n + 2 ^ 64) + (-1) * 2 ^ 64) in H by lia.
      rewrite Z_mod_plus_full, Z.mod_small in H; lia.
    - rewrite Z.mod_small in H; lia. }
  split; [exact E|].
  rewrite E. unfold neq, begin, end_, const_iterator_at. cbn [curr_].
  rewrite Bool.negb_false_iff, Z.eqb_eq. lia.
Qed.

Lemma empty_iff_size_zero_witness :
  empty sample_unused_cells = true /\ size sample_unused_cells = 0.
Proof.
  destruct (empty_iff_size_zero sample_unused_cells ltac:(cbn; lia))
    as ((H & _) & _).
  split; [reflexivity|apply H; reflexivity].
Defined.

(** X7. On a list whose count is 0, also one whose array is allocated,
    [at] throws [std::out_of_range] for every index, a forward iteration
    ends at its first test and produces nothing, the free function
    [get<T>] throws [bad_cast] for every type, code and index, and
    [contains] and [count] answer false and 0. *)
Theorem empty_list_answers (p : properties) :
  empty p = true ->
  size p = 0
  /\ elements p = []
  /\ (forall i, 0 <= i -> at_ p i = throw (out_of_range "property index"))
  /\ (forall fuel, iterate (S fuel) p = Some (ok []))
  /\ (forall T c idx, get_from T p c idx = throw bad_cast)
  /\ (forall c, contains p c = false /\ count p c = 0).
Proof.
  intros H. unfold empty in H. apply Z.eqb_eq in H.
  assert (S0 : size p = 0) by (unfold size; rewrite H; reflexivity).
  assert (E0 : elements p = []).
  { unfold elements, cells. rewrite H. reflexivity. }
  split; [exact S0|]. split; [exact E0|]. split; [|split; [|split]].
  - intros i Hi. unfold at_. fold (size p). rewrite S0.
    destruct (Z.ltb_spec i 0); [lia|reflexivity].
  - intros fuel. unfold iterate, end_, begin. rewrite S0. reflexivity.
  - intros T c idx. unfold get_from, MQTTProperties_getPropertyAt.
    fold (elements p). rewrite E0. reflexivity.
  - intros c. unfold contains, count, MQTTProperties_hasProperty,
      MQTTProperties_propertyCount.
    fold (elements p). rewrite E0. split; reflexivity.
Qed.

Lemma empty_list_answers_witness :
  at_ sample_unused_cells 0 = throw (out_of_range "property index")
  /\ subscript sample_unused_cells 0 <> undefined.
Proof.
  destruct (empty_list_answers sample_unused_cells eq_refl)
    as (_ & _ & H & _).
  split; [apply H; lia|discriminate].
Defined.

(** ** Iterators *)

(** X8. [operator!=] looks at the position alone: it is false between an
    iterator and itself, symmetric, and false exactly when the two
    positions are equal, whatever the scratch properties hold.  A
    dereference leaves the position where it is and stores the property
    it returns; an increment moves to a different position; the postfix
    increment returns the iterator as it was and advances as the prefix
    one does. *)
Theorem iterator_compares_positions (mem : list MQTTProperty.t)
    (it other : const_iterator) :
  neq it it = false
  /\ neq it other = neq other it
  /\ (neq it other = false <-> curr_ it = curr_ other)
  /\ neq (incr it) it = true
  /\ post_incr it = (it, incr it)
  /\ match deref mem it with
     | ok (q, it') =>
         neq it' it = false /\ scratch it' = Some q
         /\ deref mem it' = ok (q, it')
     | throw _ => False
     | undefined => True
     end.
Proof.
  unfold neq.
  split; [rewrite Z.eqb_refl; reflexivity|].
  split; [rewrite Z.eqb_sym; reflexivity|].
  split; [rewrite Bool.negb_false_iff, Z.eqb_eq; reflexivity|].
  split.
  { cbn [incr curr_]. destruct (Z.eqb_spec (curr_ it + 1) (curr_ it));
      [lia|reflexivity]. }
  split; [reflexivity|].
  unfold deref. pose proof (read_no_throw mem (curr_ it)) as N.
  destruct (read mem (curr_ it)) as [c|e|] eqn:R.
  - cbn [curr_ scratch]. rewrite Z.eqb_refl, R. repeat split.
  - destruct (N e eq_refl).
  - exact I.
Qed.

(** ** Iteration and indexed access *)

Lemma iterate_elements (p : properties) (fuel : nat) :
  wf_MQTTProperties (props_ p) ->
  size p < Z.of_nat fuel ->
  iterate fuel p = Some (ok (property_of_c <$> elements p)).
Proof.
  intros Hwf Hf. pose proof (wf_size p Hwf) as Hsz.
  destruct Hwf as [Hc Hl]. unfold iterate.
  rewrite (range_for_complete _ (Z.to_nat (MQTTProperties.count (props_ p))));
    cbn [begin end_ const_iterator_at curr_]; try lia.
  reflexivity.
Qed.

Lemma at_elements (p : properties) (i : Z) :
  wf_MQTTProperties (props_ p) ->
  0 <= i ->
  at_ p i =
    match elements p !! Z.to_nat i with
    | Some c => ok (property_of_c c)
    | None => throw (out_of_range "property index")
    end.
Proof.
  intros Hwf Hi. pose proof (wf_size p Hwf) as Hsz.
  pose proof (wf_length_cells _ Hwf) as Hlen.
  unfold at_, subscript. fold (size p).
  destruct (Z.ltb_spec i (size p)) as [L|L].
  - rewrite read_cells by lia.
    destruct (read_in_range (cells (props_ p)) i) as (c & Hc & Hr); [lia|].
    unfold elements. rewrite Hr, Hc. reflexivity.
  - unfold elements. rewrite (proj2 (lookup_ge_None _ _)); [reflexivity|].
    lia.
Qed.

(** X9. On a well-formed list a forward iteration yields [size()]
    properties, and the [k]-th of them is the property [at(k)] returns:
    walking the list and indexing it give the same elements in the same
    order. *)
Theorem iteration_agrees_with_at (p : properties) (fuel : nat) :
  wf_MQTTProperties (props_ p) ->
  size p < Z.of_nat fuel ->
  exists out,
    iterate fuel p = Some (ok out)
    /\ Z.of_nat (length out) = size p
    /\ (forall (k : nat) (q : property),
          out !! k = Some q <-> at_ p (Z.of_nat k) = ok q).
Proof.
  intros Hwf Hf. exists (property_of_c <$> elements p).
  split; [apply iterate_elements; assumption|].
  split.
  { rewrite length_fmap. unfold elements.
    rewrite (wf_length_cells _ Hwf). symmetry. apply wf_size. exact Hwf. }
  intros k q. rewrite (at_elements p (Z.of_nat k) Hwf) by lia.
  rewrite Nat2Z.id, list_lookup_fmap.
  destruct (elements p !! k) as [c|]; cbn.
  - split; intros H; congruence.
  - split; intros H; discriminate.
Qed.

Lemma iteration_agrees_with_at_witness :
  exists out,
    iterate 3 two_cells = Some (ok out)
    /\ out !! 1%nat = Some (property_of_c
                              (MQTTProperty.mk 36
                                 (MQTTValue.mk 1 0 0 no_buffer no_buffer))).
Proof.
  destruct (iteration_agrees_with_at two_cells 3 two_cells_wf
              ltac:(vm_compute; reflexivity)) as (out & Hit & _ & Hk).
  exists out. split; [exact Hit|]. apply Hk. reflexivity.
Defined.

Lemma curr_iter_incr (k : nat) (it : const_iterator) :
  curr_ (Nat.iter k incr it) = curr_ it + Z.of_nat k.
Proof.
  induction k as [|k IH]; [cbn; lia|].
  change (Nat.iter (S k) incr it) with (incr (Nat.iter k incr it)).
  unfold incr at 1. cbn [curr_]. rewrite IH. lia.
Qed.

(** X10. On a well-formed list, the loop started from [begin()] advanced
    [k] times, with [k] at most [size()], ends and yields the properties
    of the elements from position [k] on: an iteration may start at any
    position up to the end. *)
Theorem iteration_from_position (p : properties) (k fuel : nat) :
  wf_MQTTProperties (props_ p) ->
  Z.of_nat k <= size p ->
  size p - Z.of_nat k < Z.of_nat fuel ->
  range_for fuel (MQTTProperties.array (props_ p))
    (Nat.iter k incr (begin p)) (end_ p)
  = Some (ok (property_of_c <$> drop k (elements p))).
Proof.
  intros Hwf Hk Hf. pose proof (wf_size p Hwf) as Hsz.
  destruct Hwf as [Hc Hl].
  pose proof (curr_iter_incr k (begin p)) as Hcur. cbn [begin const_iterator_at curr_] in Hcur.
  rewrite (range_for_complete _ (Z.to_nat (MQTTProperties.count (props_ p))));
    rewrite ?Hcur; cbn [begin end_ const_iterator_at curr_]; try lia.
  replace (Z.to_nat (0 + Z.of_nat k)) with k by lia. reflexivity.
Qed.

Lemma iteration_from_position_witness :
  range_for 2 (MQTTProperties.array (props_ two_cells))
    (incr (begin two_cells)) (end_ two_cells)
  = Some (ok [property_of_c
                (MQTTProperty.mk 36 (MQTTValue.mk 1 0 0 no_buffer no_buffer))]).
Proof.
  exact (iteration_from_position two_cells 1 2 two_cells_wf
           ltac:(vm_compute; discriminate) ltac:(vm_compute; reflexivity)).
Defined.

(** X11. The loop condition is [!=], not [<]: started from a position
    past [last], the loop never ends normally.  It walks on until it
    reads outside the array: whatever the fuel it has not ended with a
    result, and with fuel above the number of cells from its position to
    the end of the array it has read outside the array. *)
Theorem iteration_from_past_the_end (mem : list MQTTProperty.t)
    (it last : const_iterator) (fuel : nat) :
  curr_ last < curr_ it ->
  (range_for fuel mem it last = None
   \/ range_for fuel mem it last = Some undefined)
  /\ (Z.max 0 (Z.of_nat (length mem) - curr_ it) < Z.of_nat fuel ->
        range_for fuel mem it last = Some undefined).
Proof.
  revert it. induction fuel as [|fuel IH]; intros it Hlt.
  { split; [left; reflexivity|lia]. }
  cbn [range_for]. unfold neq.
  destruct (Z.eqb_spec (curr_ it) (curr_ last)) as [E|_]; [lia|].
  cbn [negb]. unfold deref.
  pose proof (read_no_throw mem (curr_ it)) as N.
  destruct (read mem (curr_ it)) as [c|e|] eqn:R.
  - set (it' := incr (Build_const_iterator (curr_ it) (Some (property_of_c c)))).
    destruct (IH it') as [Hany Henough]; [cbn [it' incr curr_]; lia|].
    split.
    + destruct Hany as [H|H]; rewrite H; [left|right]; reflexivity.
    + intros Hf. rewrite Henough; [reflexivity|].
      assert (0 <= curr_ it < Z.of_nat (length mem)).
      { unfold read in R. destruct (Z.ltb_spec (curr_ it) 0); [discriminate|].
        destruct (mem !! Z.to_nat (curr_ it)) eqn:L; [|discriminate].
        apply lookup_lt_Some in L. lia. }
      cbn [it' incr curr_]. lia.
  - destruct (N e eq_refl).
  - split; [right; reflexivity|reflexivity].
Qed.

Lemma iteration_from_past_the_end_witness :
  range_for 5 (MQTTProperties.array (props_ two_cells))
    (const_iterator_at 3) (end_ two_cells) = Some undefined.
Proof.
  destruct (iteration_from_past_the_end
              (MQTTProperties.array (props_ two_cells))
              (const_iterator_at 3) (end_ two_cells) 5
              ltac:(vm_compute; reflexivity)) as [_ H].
  apply H. vm_compute. reflexivity.
Defined.

(** ** The index of the typed lookup *)

Lemma int_periodic (x k : Z) : int (x + k * 2 ^ 32) = int x.
Proof.
  unfold int, to_signed.
  replace (x + k * 2 ^ 32 + 2 ^ (32 - 1)) with (x + 2 ^ (32 - 1) + k * 2 ^ 32)
    by lia.
  rewrite Z_mod_plus_full. reflexivity.
Qed.

(** X12. The free function [get<T>(list, code, idx)] narrows its
    [size_t] index to [int]: two indices that differ by a multiple of
    2^32 give the same outcome, so the index 2^32 is answered as the
    index 0 is. *)
Theorem get_from_index_is_narrowed (T : cxx_type) (ps : properties)
    (c : code) (idx k : Z) :
  get_from T ps c (idx + k * 2 ^ 32) = get_from T ps c idx
  /\ get_from T ps c (2 ^ 32) = get_from_first T ps c.
Proof.
  unfold get_from_first, get_from. split.
  - rewrite int_periodic. reflexivity.
  - reflexivity.
Qed.

(** X13. The free function [get<T>(list, code, idx)] throws [bad_cast]
    or [std::length_error] and nothing else.  It throws [bad_cast] only
    when [T] has no specialization or the lookup found no such
    occurrence, and [std::length_error] only for the string types, when
    the cell found has a buffer with a pointer that is not null and a
    negative length.  For the five integer types it throws exactly when
    the lookup found no such occurrence, and then [bad_cast]. *)
Theorem get_from_exceptions (T : cxx_type) (ps : properties)
    (c : code) (idx : Z) :
  (forall e, get_from T ps c idx = throw e ->
     (e = bad_cast
      /\ (supported T = false
          \/ MQTTProperties_getPropertyAt (props_ ps) (MQTTPropertyCodes c)
               (int idx) = None))
     \/ (e = length_error
         /\ (T = T_string \/ T = T_string_pair)
         /\ exists cell,
              MQTTProperties_getPropertyAt (props_ ps) (MQTTPropertyCodes c)
                (int idx) = Some cell
              /\ (negative_length (MQTTValue.data (MQTTProperty.value cell))
                  \/ negative_length
                       (MQTTValue.value (MQTTProperty.value cell)))))
  /\ (is_integer_type T = true ->
        forall e, get_from T ps c idx = throw e <->
          e = bad_cast
          /\ MQTTProperties_getPropertyAt (props_ ps) (MQTTPropertyCodes c)
               (int idx) = None).
Proof.
  unfold get_from.
  destruct (MQTTProperties_getPropertyAt _ _ _) as [cell|].
  - split.
    + intros e H. apply get_throw in H.
      unfold property_of_c, c_struct in H. cbn [prop_] in H.
      rewrite copy_id in H.
      destruct H as [[-> S]|(-> & HT & B)].
      * left. split; [reflexivity|left; exact S].
      * right. split; [reflexivity|]. split; [exact HT|].
        exists cell. split; [reflexivity|exact B].
    + intros I e. destruct (get_integer T (property_of_c cell) I) as [v Hv].
      rewrite Hv. split; [discriminate|intros [_ H]; discriminate H].
  - split.
    + intros e H. injection H as <-. left. split; [reflexivity|right; reflexivity].
    + intros _ e. split; [intros H; injection H as <-; split; reflexivity|].
      intros [-> _]. reflexivity.
Qed.

Lemma get_from_exceptions_witness :
  get_from T_uint8 two_cells USER_PROPERTY 0 = throw bad_cast
  /\ get_from T_string sample_negative_list CONTENT_TYPE 0
       = throw length_error.
Proof.
  destruct (get_from_exceptions T_uint8 two_cells USER_PROPERTY 0)
    as [_ Hint].
  split.
  - apply (Hint eq_refl). split; reflexivity.
  - assert (H : exists e, get_from T_string sample_negative_list
                            CONTENT_TYPE 0 = throw e)
      by (eexists; reflexivity).
    destruct H as [e He].
    destruct (get_from_exceptions T_string sample_negative_list CONTENT_TYPE 0)
      as [Hall _].
    destruct (Hall e He) as [[_ [S|N]]|(-> & _)];
      [discriminate S|discriminate N|exact He].
Defined.

(** ** The setters of the connect options *)

Section SetterProperties.

Context {will_options ssl_options token_ptr const_string_collection_ptr
         name_value_collection : Type}.

Local Abbreviation options :=
  (@connect_options.t will_options ssl_options token_ptr
     const_string_collection_ptr name_value_collection).

(** X14. Each of the four integer setters of the header stores its
    argument where the matching getter reads it, and changes nothing
    else: the other getters of the C struct answer as before and the
    other data members, the property list among them, are the same. *)
Theorem integer_setters_store_and_keep (c : options) (n : Z) :
  (opts_getters (connect_options_setters.set_socket_fwmark c n) =
     (n,
      connect_options.get_keep_alive_interval c,
      connect_options.get_connect_timeout c,
      connect_options.get_max_inflight c,
      connect_options.is_clean_session c,
      connect_options.is_clean_start c,
      connect_options.get_mqtt_version c,
      connect_options.get_automatic_reconnect c,
      connect_options.get_min_retry_interval c,
      connect_options.get_max_retry_interval c)
   /\ other_members_kept c (connect_options_setters.set_socket_fwmark c n))
  /\
  (opts_getters (connect_options_setters.set_keep_alive_interval c n) =
     (connect_options.get_socket_fwmark c,
      n,
      connect_options.get_connect_timeout c,
      connect_options.get_max_inflight c,
      connect_options.is_clean_session c,
      connect_options.is_clean_start c,
      connect_options.get_mqtt_version c,
      connect_options.get_automatic_reconnect c,
      connect_options.get_min_retry_interval c,
      connect_options.get_max_retry_interval c)
   /\ other_members_kept c (connect_options_setters.set_keep_alive_interval c n))
  /\
  (opts_getters (connect_options_setters.set_connect_timeout c n) =
     (connect_options.get_socket_fwmark c,
      connect_options.get_keep_alive_interval c,
      n,
      connect_options.get_max_inflight c,
      connect_options.is_clean_session c,
      connect_options.is_clean_start c,
      connect_options.get_mqtt_version c,
      connect_options.get_automatic_reconnect c,
      connect_options.get_min_retry_interval c,
      connect_options.get_max_retry_interval c)
   /\ other_members_kept c (connect_options_setters.set_connect_timeout c n))
  /\
  (opts_getters (connect_options_setters.set_max_inflight c n) =
     (connect_options.get_socket_fwmark c,
      connect_options.get_keep_alive_interval c,
      connect_options.get_connect_timeout c,
      n,
      connect_options.is_clean_session c,
      connect_options.is_clean_start c,
      connect_options.get_mqtt_version c,
      connect_options.get_automatic_reconnect c,
      connect_options.get_min_retry_interval c,
      connect_options.get_max_retry_interval c)
   /\ other_members_kept c (connect_options_setters.set_max_inflight c n)).
Proof.
  unfold other_members_kept. repeat split.
Qed.

(** X15. The integer setters compose as assignments to distinct fields
    do: setting the same field twice keeps the last value, setters of
    different fields commute, and storing the value a getter has just
    returned changes nothing. *)
Theorem integer_setters_compose (c : options) (a b : Z) :
  (connect_options_setters.set_keep_alive_interval
     (connect_options_setters.set_keep_alive_interval c a) b
   = connect_options_setters.set_keep_alive_interval c b
   /\ connect_options_setters.set_connect_timeout
        (connect_options_setters.set_connect_timeout c a) b
      = connect_options_setters.set_connect_timeout c b
   /\ connect_options_setters.set_max_inflight
        (connect_options_setters.set_max_inflight c a) b
      = connect_options_setters.set_max_inflight c b
   /\ connect_options_setters.set_socket_fwmark
        (connect_options_setters.set_socket_fwmark c a) b
      = connect_options_setters.set_socket_fwmark c b)
  /\
  (connect_options_setters.set_keep_alive_interval
     (connect_options_setters.set_connect_timeout c a) b
   = connect_options_setters.set_connect_timeout
       (connect_options_setters.set_keep_alive_interval c b) a
   /\ connect_options_setters.set_keep_alive_interval
        (connect_options_setters.set_max_inflight c a) b
      = connect_options_setters.set_max_inflight
          (connect_options_setters.set_keep_alive_interval c b) a
   /\ connect_options_setters.set_keep_alive_interval
        (connect_options_setters.set_socket_fwmark c a) b
      = connect_options_setters.set_socket_fwmark
          (connect_options_setters.set_keep_alive_interval c b) a
   /\ connect_options_setters.set_connect_timeout
        (connect_options_setters.set_max_inflight c a) b
      = connect_options_setters.set_max_inflight
          (connect_options_setters.set_connect_timeout c b) a
   /\ connect_options_setters.set_connect_timeout
        (connect_options_setters.set_socket_fwmark c a) b
      = connect_options_setters.set_socket_fwmark
          (connect_options_setters.set_connect_timeout c b) a
   /\ connect_options_setters.set_max_inflight
        (connect_options_setters.set_socket_fwmark c a) b
      = connect_options_setters.set_socket_fwmark
          (connect_options_setters.set_max_inflight c b) a)
  /\
  (connect_options_setters.set_keep_alive_interval c
     (connect_options.get_keep_alive_interval c) = c
   /\ connect_options_setters.set_connect_timeout c
        (connect_options.get_connect_timeout c) = c
   /\ connect_options_setters.set_max_inflight c
        (connect_options.get_max_inflight c) = c
   /\ connect_options_setters.set_socket_fwmark c
        (connect_options.get_socket_fwmark c) = c).
Proof.
  split; [repeat split|]. split; [repeat split|].
  destruct c as [o w s u pw tk sv pr hh hp hsp]. destruct o.
  repeat split.
Qed.

(** X16. [set_automatic_reconnect(bool)] followed by
    [get_automatic_reconnect()] returns the flag that was set, for any
    [to_int] that [to_bool] inverts; as the header says, the retry
    intervals are not affected, and neither is any other getter or data
    member. *)
Theorem set_automatic_reconnect_round_trip (to_int : bool -> Z)
    (c : options) (on : bool) :
  (forall b, connect_options.to_bool (to_int b) = b) ->
  let c' := connect_options_setters.set_automatic_reconnect to_int c on in
  connect_options.get_automatic_reconnect c' = on
  /\ connect_options.get_min_retry_interval c'
       = connect_options.get_min_retry_interval c
  /\ connect_options.get_max_retry_interval c'
       = connect_options.get_max_retry_interval c
  /\ opts_getters c' =
       (connect_options.get_socket_fwmark c,
        connect_options.get_keep_alive_interval c,
        connect_options.get_connect_timeout c,
        connect_options.get_max_inflight c,
        connect_options.is_clean_session c,
        connect_options.is_clean_start c,
        connect_options.get_mqtt_version c,
        on,
        connect_options.get_min_retry_interval c,
        connect_options.get_max_retry_interval c)
  /\ other_members_kept c c'.
Proof.
  intros Hinv c'.
  assert (G : connect_options.get_automatic_reconnect c' = on)
    by (apply Hinv).
  split; [exact G|]. split; [reflexivity|]. split; [reflexivity|].
  split.
  - unfold opts_getters. rewrite G. reflexivity.
  - unfold other_members_kept. repeat split.
Qed.

Lemma int_in_range (x : Z) : - 2 ^ 31 <= x < 2 ^ 31 -> int x = x.
Proof.
  intros H. unfold int, to_signed. change (32 - 1) with 31.
  rewrite Z.mod_small; lia.
Qed.

(** X17. The duration overloads of [set_keep_alive_interval] and
    [set_connect_timeout] narrow the count of seconds to [int] with no
    range check: the getter returns the count when it fits an [int], a
    value in the range of [int] in every case, and the same value for two
    counts that differ by a multiple of 2^32. *)
Theorem duration_setters_narrow_to_int {duration : Type}
    (to_seconds_count : duration -> Z) (c : options) (d d' : duration) :
  let ka d := connect_options.get_keep_alive_interval
                (connect_options_setters.set_keep_alive_interval_duration
                   to_seconds_count c d) in
  let ct d := connect_options.get_connect_timeout
                (connect_options_setters.set_connect_timeout_duration
                   to_seconds_count c d) in
  (ka d = int (to_seconds_count d) /\ ct d = int (to_seconds_count d))
  /\ (- 2 ^ 31 <= ka d < 2 ^ 31 /\ - 2 ^ 31 <= ct d < 2 ^ 31)
  /\ (- 2 ^ 31 <= to_seconds_count d < 2 ^ 31 ->
        ka d = to_seconds_count d /\ ct d = to_seconds_count d)
  /\ (forall k, to_seconds_count d' = to_seconds_count d + k * 2 ^ 32 ->
        ka d' = ka d /\ ct d' = ct d).
Proof.
  intros ka ct.
  assert (Ka : forall x, ka x = int (to_seconds_count x)) by reflexivity.
  assert (Ct : forall x, ct x = int (to_seconds_count x)) by reflexivity.
  clearbody ka ct.
  pose proof (to_signed_range 32 (to_seconds_count d) ltac:(lia)) as R.
  change (32 - 1) with 31 in R. fold (int (to_seconds_count d)) in R.
  split; [split; [apply Ka|apply Ct]|].
  split; [rewrite Ka, Ct; split; exact R|].
  split.
  - intros H. rewrite Ka, Ct, int_in_range by exact H. split; reflexivity.
  - intros k H. rewrite !Ka, !Ct, H, int_periodic. split; reflexivity.
Qed.

End SetterProperties.

Lemma set_automatic_reconnect_round_trip_witness :
  connect_options.get_automatic_reconnect
    (connect_options_setters.set_automatic_reconnect sample_to_int
       sample_options true) = true.
Proof.
  destruct (set_automatic_reconnect_round_trip sample_to_int sample_options
              true ltac:(intros []; reflexivity)) as (H & _).
  exact H.
Defined.

Lemma duration_setters_narrow_to_int_witness :
  connect_options.get_keep_alive_interval
    (connect_options_setters.set_keep_alive_interval_duration (fun s : Z => s)
       sample_options (2 ^ 32 + 45)) = 45
  /\ connect_options.get_connect_timeout
       (connect_options_setters.set_connect_timeout_duration (fun s : Z => s)
          sample_options 30) = 30.
Proof.
  destruct (duration_setters_narrow_to_int (fun s : Z => s) sample_options
              45 (2 ^ 32 + 45)) as (_ & _ & Hfit & Hwrap).
  destruct (duration_setters_narrow_to_int (fun s : Z => s) sample_options
              30 30) as (_ & _ & Hfit30 & _).
  split.
  - rewrite (proj1 (Hwrap 1 ltac:(lia))). apply Hfit. lia.
  - apply Hfit30. lia.
Defined.

(** ** The representation invariant *)

Lemma wf_add (p : properties) (q : property) :
  wf_MQTTProperties (props_ p) ->
  size p + 1 < 2 ^ 31 ->
  wf_MQTTProperties (props_ (add p q))
  /\ elements (add p q) = elements p ++ [c_struct q].
Proof.
  intros Hwf Hb. pose proof (wf_size p Hwf) as Hsz.
  pose proof (wf_length_cells _ Hwf) as Hlen.
  destruct Hwf as [Hc Hl].
  assert (L : Z.of_nat (length (cells (props_ p) ++ [copy (c_struct q)]))
              = MQTTProperties.count (props_ p) + 1).
  { rewrite length_app. cbn [length]. lia. }
  split.
  - unfold wf_MQTTProperties, add, MQTTProperties_add.
    cbn [props_ MQTTProperties.count MQTTProperties.array]. lia.
  - unfold elements at 1. unfold cells at 1. unfold add, MQTTProperties_add.
    cbn [props_ MQTTProperties.count MQTTProperties.array].
    rewrite take_ge by lia. rewrite copy_id. reflexivity.
Qed.

(** X18. The representation invariant of the C struct (the count is a
    non-negative [int] and so many cells are allocated) holds for
    [properties()], after [clear()] and for what a move leaves behind; it
    is kept by the move and copy constructors and by [add], as long as
    the count stays below 2^31. *)
Theorem representation_invariant_kept (p : properties) (q : property) :
  wf_MQTTProperties (props_ properties_default)
  /\ wf_MQTTProperties (props_ (clear p))
  /\ wf_MQTTProperties (props_ (snd (properties_move p)))
  /\ (wf_MQTTProperties (props_ p) ->
        wf_MQTTProperties (props_ (fst (properties_move p)))
        /\ wf_MQTTProperties (props_ (properties_copy p))
        /\ (size p + 1 < 2 ^ 31 -> wf_MQTTProperties (props_ (add p q)))).
Proof.
  assert (Z0 : wf_MQTTProperties memset_zero)
    by (unfold wf_MQTTProperties; cbn; lia).
  split; [exact Z0|]. split; [exact Z0|]. split; [exact Z0|].
  intros Hwf. split; [exact Hwf|]. split.
  - pose proof (wf_length_cells _ Hwf) as Hlen. destruct Hwf as [Hc Hl].
    unfold wf_MQTTProperties, properties_copy, MQTTProperties_copy.
    cbn [props_ MQTTProperties.count MQTTProperties.array].
    rewrite length_fmap. lia.
  - intros Hb. apply wf_add; assumption.
Qed.

Lemma representation_invariant_kept_witness :
  wf_MQTTProperties (props_ (add two_cells sample_user1))
  /\ wf_MQTTProperties (props_ (properties_copy two_cells)).
Proof.
  destruct (representation_invariant_kept two_cells sample_user1)
    as (_ & _ & _ & H).
  destruct (H two_cells_wf) as (_ & Hcopy & Hadd).
  split; [apply Hadd; vm_compute; reflexivity|exact Hcopy].
Defined.

(** ** add *)

(** X19. On a well-formed list with fewer than 2^31 - 1 elements, [add]
    appends: the size grows by one, [at] returns the added property at
    the old size and what it returned before at every position below it,
    the list is not empty, and a forward iteration yields the former
    sequence followed by the added property. *)
Theorem add_appends (p : properties) (q : property) :
  wf_MQTTProperties (props_ p) ->
  size p + 1 < 2 ^ 31 ->
  size (add p q) = size p + 1
  /\ empty (add p q) = false
  /\ at_ (add p q) (size p) = ok q
  /\ (forall i, 0 <= i < size p -> at_ (add p q) i = at_ p i)
  /\ (forall fuel, size p + 1 < Z.of_nat fuel ->
        iterate fuel (add p q)
        = Some (ok ((property_of_c <$> elements p) ++ [q]))).
Proof.
  intros Hwf Hb.
  destruct (wf_add p q Hwf Hb) as [Hwf' El].
  pose proof (wf_size p Hwf) as Hsz.
  pose proof (wf_length_cells _ Hwf) as Hlen. fold (elements p) in Hlen.
  assert (Hc : 0 <= MQTTProperties.count (props_ p)) by (destruct Hwf; lia).
  assert (Sz : size (add p q) = size p + 1).
  { rewrite (wf_size _ Hwf'), Hsz. reflexivity. }
  split; [exact Sz|]. split.
  { unfold empty, add, MQTTProperties_add.
    cbn [props_ MQTTProperties.count]. apply Z.eqb_neq. lia. }
  split.
  { rewrite (at_elements _ _ Hwf') by lia. rewrite El.
    rewrite lookup_app_r by lia.
    replace (Z.to_nat (size p) - length (elements p))%nat with 0%nat by lia.
    cbn. rewrite property_of_c_struct. reflexivity. }
  split.
  { intros i Hi. rewrite (at_elements _ _ Hwf'), (at_elements _ _ Hwf) by lia.
    rewrite El. rewrite lookup_app_l by lia. reflexivity. }
  intros fuel Hf. rewrite (iterate_elements _ _ Hwf') by lia.
  rewrite El, fmap_app. cbn [fmap list_fmap].
  rewrite property_of_c_struct. reflexivity.
Qed.

Lemma add_appends_witness :
  size (add two_cells sample_user1) = 3
  /\ at_ (add two_cells sample_user1) 2 = ok sample_user1.
Proof.
  destruct (add_appends two_cells sample_user1 two_cells_wf
              ltac:(vm_compute; reflexivity)) as (Hs & _ & Hat & _).
  split; [exact Hs|exact Hat].
Defined.

(** ** contains, count and the typed lookup *)

(** X20. On a well-formed list the three lookups by code agree:
    [contains(code)] is true exactly when [count(code)] is positive, and
    exactly when the free function [get<uint8_t>(list, code, 0)] returns
    a value; [count(code)] is at most [size()]; and when [contains(code)]
    is false the free function [get<T>] throws [bad_cast] for every type
    and index. *)
Theorem lookups_by_code_agree (p : properties) (c : code) :
  wf_MQTTProperties (props_ p) ->
  (contains p c = true <-> 0 < count p c)
  /\ (contains p c = true <-> exists v, get_from T_uint8 p c 0 = ok v)
  /\ 0 <= count p c <= size p
  /\ (contains p c = false ->
        forall T idx, get_from T p c idx = throw bad_cast).
Proof.
  intros Hwf. pose proof (wf_size p Hwf) as Hsz.
  pose proof (wf_length_cells _ Hwf) as Hlen. fold (elements p) in Hlen.
  pose proof (length_filter (has_code (MQTTPropertyCodes c)) (elements p)) as Lf.
  assert (Hc : 0 <= MQTTProperties.count (props_ p) < 2 ^ 31)
    by (destruct Hwf; assumption).
  assert (Cnt : count p c = Z.of_nat (length (occurrences p c))).
  { unfold count, MQTTProperties_propertyCount. fold (elements p).
    rewrite count_scan_filter. fold (occurrences p c).
    apply size_t_small. unfold occurrences. lia. }
  assert (Con : contains p c = true <-> occurrences p c <> []).
  { unfold contains, MQTTProperties_hasProperty. fold (elements p).
    rewrite has_scan_filter. fold (occurrences p c).
    destruct (decide (occurrences p c = [])) as [E|E]; cbn; split;
      intros H; congruence. }
  assert (Get : forall T idx, get_from T p c idx =
            match at_scan (elements p) (MQTTPropertyCodes c) (int idx) with
            | Some e => get T (property_of_c e)
            | None => throw bad_cast
            end).
  { intros T idx. unfold get_from, MQTTProperties_getPropertyAt.
    fold (elements p). destruct (at_scan _ _ _); reflexivity. }
  split; [|split; [|split]].
  - rewrite Con, Cnt. destruct (occurrences p c); cbn [length]; split;
      intros H; try congruence; lia.
  - rewrite Con, Get. change (int 0) with 0.
    rewrite at_scan_filter by lia. fold (occurrences p c).
    change (Z.to_nat 0) with 0%nat.
    destruct (occurrences p c) as [|e l]; cbn.
    + split; [congruence|intros [v Hv]; discriminate].
    + split; [eauto|congruence].
  - rewrite Cnt, Hsz. unfold occurrences. lia.
  - intros H T idx. rewrite Get.
    assert (E : occurrences p c = []).
    { destruct (occurrences p c) eqn:O; [reflexivity|].
      assert (contains p c = true) by (apply Con; discriminate).
      congruence. }
    destruct (Z.lt_ge_cases (int idx) 0) as [Neg|Pos].
    + rewrite at_scan_negative by exact Neg. reflexivity.
    + rewrite at_scan_filter by exact Pos. fold (occurrences p c).
      rewrite E. reflexivity.
Qed.

Lemma lookups_by_code_agree_witness :
  0 < count two_cells MAXIMUM_QOS
  /\ get_from T_string two_cells USER_PROPERTY 7 = throw bad_cast.
Proof.
  destruct (lookups_by_code_agree two_cells MAXIMUM_QOS two_cells_wf)
    as (H & _).
  destruct (lookups_by_code_agree two_cells USER_PROPERTY two_cells_wf)
    as (_ & _ & _ & Habs).
  split; [apply H; reflexivity|apply Habs; reflexivity].
Defined.
